(** * The blog's content index and post pages

    A shallow embedding of [src/app/blog/page.tsx] (the listing page) and
    [src/app/blog/[slug]/page.tsx] (the post page, its metadata and its
    static parameters), with the parts of the JavaScript runtime they rest
    on, and the properties of the content pipeline proved about them. *)

From Corelib Require PrimFloat.
From Stdlib Require Import ZArith Lia Ascii Sorted Permutation.
From stdpp Require Import base option list strings pretty gmap.

Open Scope Z_scope.

(** ** The JavaScript runtime the pages use *)

Module Js.

(** What a call can throw (or a promise reject with). *)
Inductive Issue :=
| Required (field : string)
| InvalidType (field : string)
| InvalidDate (field : string)
| TooSmall (field : string).

Inductive Exception :=
| ENOENT (path : string)
| ZodError (issues : list Issue)
| MDXError (message : string)
| TypeError (message : string).

(** A call either returns or throws; an awaited promise either resolves or
    rejects. *)
Inductive completion (A : Type) :=
| Return (a : A)
| Throw (e : Exception).
Arguments Return {A} a.
Arguments Throw {A} e.

Definition bind {A B} (c : completion A) (k : A -> completion B) : completion B :=
  match c with
  | Return a => k a
  | Throw e => Throw e
  end.

(** [Array.prototype.map] with a callback that may throw: the elements are
    visited from index 0 and the first exception ends the loop.
    [Promise.all] is read the same way: it rejects as soon as one of its
    promises rejects (when several do, which rejection it reports is a
    matter of timing; the first in array order is taken here). *)
Fixpoint traverse {A B} (f : nat -> A -> completion B) (i : nat) (l : list A)
  : completion (list B) :=
  match l with
  | [] => Return []
  | x :: l' =>
      bind (f i x) (fun y => bind (traverse f (S i) l') (fun ys => Return (y :: ys)))
  end.

(** Values a decoded front matter block holds: strings, booleans, numbers
    (doubles), timestamps, sequences, mappings and null. *)
#[warnings="-register-all"]
Inductive Value :=
| VStr (s : string)
| VBool (b : bool)
| VNum (x : PrimFloat.float)
| VDate (time : Z)
| VArr (items : list Value)
| VMap (entries : list (string * Value))
| VNull.

(** [String.prototype.split] with a one-character separator. *)
Fixpoint split (sep : ascii) (s : string) : list string :=
  match s with
  | EmptyString => [EmptyString]
  | String c rest =>
      if Ascii.eqb c sep then EmptyString :: split sep rest
      else match split sep rest with
           | [] => [String c EmptyString]
           | part :: parts => String c part :: parts
           end
  end.

(** [s.slice(from, to)] for [0 <= from] and [0 <= to]. *)
Definition slice (s : list ascii) (from to : Z) : list ascii :=
  take (Z.to_nat (to - from)) (drop (Z.to_nat from) s).

(** Node's [path.parse] (posix): the loop over the characters, from the
    last one down to [start]. *)
Record Scan := {
  startDot : Z;
  startPart : Z;
  end_ : Z;
  matchedSlash : bool;
  preDotState : Z;
  broke : bool
}.

Definition scan_init : Scan :=
  {| startDot := -1; startPart := 0; end_ := -1; matchedSlash := true;
     preDotState := 0; broke := false |}.

Definition scan_step (st : Scan) (i : Z) (code : ascii) : Scan :=
  if Ascii.eqb code "/" then
    if negb (matchedSlash st) then
      {| startDot := startDot st; startPart := i + 1; end_ := end_ st;
         matchedSlash := matchedSlash st; preDotState := preDotState st;
         broke := true |}
    else st
  else
    let st1 :=
      if end_ st =? -1 then
        {| startDot := startDot st; startPart := startPart st; end_ := i + 1;
           matchedSlash := false; preDotState := preDotState st;
           broke := broke st |}
      else st in
    if Ascii.eqb code "." then
      if startDot st1 =? -1 then
        {| startDot := i; startPart := startPart st1; end_ := end_ st1;
           matchedSlash := matchedSlash st1; preDotState := preDotState st1;
           broke := broke st1 |}
      else if negb (preDotState st1 =? 1) then
        {| startDot := startDot st1; startPart := startPart st1; end_ := end_ st1;
           matchedSlash := matchedSlash st1; preDotState := 1;
           broke := broke st1 |}
      else st1
    else if negb (startDot st1 =? -1) then
      {| startDot := startDot st1; startPart := startPart st1; end_ := end_ st1;
         matchedSlash := matchedSlash st1; preDotState := -1;
         broke := broke st1 |}
    else st1.

Fixpoint scan (codes_rev : list ascii) (i start : Z) (st : Scan) : Scan :=
  match codes_rev with
  | [] => st
  | code :: more =>
      if (i <? start) || broke st then st
      else scan more (i - 1) start (scan_step st i code)
  end.

(** A character of a file name that is neither a dot nor a slash. *)
Definition plain (c : ascii) : Prop := c <> "."%char /\ c <> "/"%char.

(** [path.parse(p).name], on the characters of [p]: what follows the
    loop. *)
Definition name_from (codes : list ascii) (isAbsolute : bool) : list ascii :=
  let start := if isAbsolute then 1 else 0 in
  let st := scan (rev codes) (Z.of_nat (length codes) - 1) start scan_init in
  if negb (end_ st =? -1) then
    let from := if (startPart st =? 0) && isAbsolute then 1 else startPart st in
    if (startDot st =? -1) || (preDotState st =? 0)
       || ((preDotState st =? 1) && (startDot st =? end_ st - 1)
           && (startDot st =? startPart st + 1))
    then slice codes from (end_ st)
    else slice codes from (startDot st)
  else [].

Definition parse_name (codes : list ascii) : list ascii :=
  match codes with
  | [] => []
  | first :: _ => name_from codes (Ascii.eqb first "/")
  end.

Definition path_parse_name (p : string) : string :=
  String.string_of_list_ascii (parse_name (String.list_ascii_of_string p)).

(** [Array.prototype.sort(comparefn)], which belongs to the engine.  Each
    element in turn is inserted into the sorted prefix before it, at the
    first place where [comparefn(pivot, element) < 0]; only the sign of
    [comparefn] is read.  (V8 finds the place by binary search, which on a
    prefix in the comparator's order is this place, and merges runs of
    long arrays.) *)
Fixpoint insert {A} (comparefn : A -> A -> Z) (pivot : A) (sorted : list A) : list A :=
  match sorted with
  | [] => [pivot]
  | element :: rest =>
      if comparefn pivot element <? 0 then pivot :: element :: rest
      else element :: insert comparefn pivot rest
  end.

Definition sort {A} (comparefn : A -> A -> Z) (array : list A) : list A :=
  fold_left (fun sorted pivot => insert comparefn pivot sorted) array [].

End Js.

(** ** The front matter schema ([@/validation/blog]) *)

Module Schema.
Import Js.

(** The validated front matter of a post.  Dates are the time values of
    valid [Date] objects; [draft] may be left undefined. *)
Record BlogMatter := {
  title : string;
  summary : string;
  publishedAt : Z;
  updatedAt : option Z;
  tags : list string;
  draft : option bool
}.

Definition digit (c : ascii) : option Z :=
  let n := Z.of_N (N_of_ascii c) in
  if (48 <=? n) && (n <=? 57) then Some (n - 48) else None.

Definition number (cs : list ascii) : option Z :=
  foldl (fun acc c => match acc, digit c with
                      | Some a, Some d => Some (10 * a + d)
                      | _, _ => None
                      end) (Some 0) cs.

(** Days between 1970-01-01 and the civil date [y]-[m]-[d]. *)
Definition days_from_civil (y m d : Z) : Z :=
  let y' := if m <=? 2 then y - 1 else y in
  let era := y' / 400 in
  let yoe := y' - era * 400 in
  let doy := (153 * (m + (if 2 <? m then -3 else 9)) + 2) / 5 + d - 1 in
  let doe := yoe * 365 + yoe / 4 - yoe / 100 + doy in
  era * 146097 + doe - 719468.

(** Modelled from the spec: the date coercion of the schema is missing from
    the sources; section 6 gives the format of a date as [YYYY-MM-DD].  The
    result is the time value (milliseconds since the epoch, UTC). *)
Definition parse_date (s : string) : option Z :=
  match String.list_ascii_of_string s with
  | [y1; y2; y3; y4; dash1; m1; m2; dash2; d1; d2] =>
      if Ascii.eqb dash1 "-" && Ascii.eqb dash2 "-" then
        match number [y1; y2; y3; y4], number [m1; m2], number [d1; d2] with
        | Some y, Some m, Some d =>
            if (1 <=? m) && (m <=? 12) && (1 <=? d) && (d <=? 31)
            then Some (days_from_civil y m d * 86400000)
            else None
        | _, _, _ => None
        end
      else None
  | _ => None
  end.

(** The outcome of checking one field: its issues, or its value. *)
Definition checked (A : Type) : Type := list Issue + A.

Definition issues_of {A} (c : checked A) : list Issue :=
  match c with
  | inl issues => issues
  | inr _ => []
  end.

Definition check_title (v : option Value) : checked string :=
  match v with
  | None => inl [Required "title"]
  | Some (VStr s) => if String.eqb s "" then inl [TooSmall "title"] else inr s
  | Some _ => inl [InvalidType "title"]
  end.

Definition check_summary (v : option Value) : checked string :=
  match v with
  | None => inl [Required "summary"]
  | Some (VStr s) => inr s
  | Some _ => inl [InvalidType "summary"]
  end.

Definition coerce_date (field : string) (v : Value) : checked Z :=
  match v with
  | VDate time => inr time
  | VStr s =>
      match parse_date s with
      | Some time => inr time
      | None => inl [InvalidDate field]
      end
  | _ => inl [InvalidDate field]
  end.

Definition check_publishedAt (v : option Value) : checked Z :=
  match v with
  | None => inl [Required "publishedAt"]
  | Some x => coerce_date "publishedAt" x
  end.

Definition check_updatedAt (v : option Value) : checked (option Z) :=
  match v with
  | None => inr None
  | Some x =>
      match coerce_date "updatedAt" x with
      | inl issues => inl issues
      | inr time => inr (Some time)
      end
  end.

(** A bare string becomes a one-element sequence; the sequence constraint
    is checked on the result. *)
Definition normalize_tags (v : Value) : Value :=
  match v with
  | VStr s => VArr [VStr s]
  | other => other
  end.

Definition as_string (v : Value) : option string :=
  match v with
  | VStr s => Some s
  | _ => None
  end.

Definition check_tags (v : option Value) : checked (list string) :=
  match v with
  | None => inl [Required "tags"]
  | Some x =>
      match normalize_tags x with
      | VArr items =>
          match mapM as_string items with
          | Some strings => inr strings
          | None => inl [InvalidType "tags"]
          end
      | _ => inl [InvalidType "tags"]
      end
  end.

Definition check_draft (v : option Value) : checked (option bool) :=
  match v with
  | None => inr (Some false)
  | Some (VBool b) => inr (Some b)
  | Some _ => inl [InvalidType "draft"]
  end.

(** Modelled from the spec: [blogMatterSchema.parse] of
    [src/validation/blog], which is missing from the sources.  Section 3 of
    the spec names the fields: [title] (a non-empty string), [summary]
    (a string), [publishedAt] (a date) and [tags] (a sequence of strings)
    are required, [updatedAt] (a date) and [draft] (a boolean, false when
    absent) are optional; section 4.1 has a record rejected when a required
    field is absent, a value cannot be coerced, or a tag is not a string. *)
Definition parse (raw : gmap string Value) : completion BlogMatter :=
  let t := check_title (raw !! "title") in
  let s := check_summary (raw !! "summary") in
  let p := check_publishedAt (raw !! "publishedAt") in
  let u := check_updatedAt (raw !! "updatedAt") in
  let g := check_tags (raw !! "tags") in
  let d := check_draft (raw !! "draft") in
  match t, s, p, u, g, d with
  | inr t', inr s', inr p', inr u', inr g', inr d' =>
      Return {| title := t'; summary := s'; publishedAt := p'; updatedAt := u';
                tags := g'; draft := d' |}
  | _, _, _, _, _, _ =>
      Throw (ZodError (issues_of t ++ issues_of s ++ issues_of p ++ issues_of u
                         ++ issues_of g ++ issues_of d))
  end.

(** A validated record as the object it is at run time, to be handed to
    the schema again. *)
Definition to_object (m : BlogMatter) : gmap string Value :=
  let required : gmap string Value :=
    <["title" := VStr (title m)]>
    (<["summary" := VStr (summary m)]>
    (<["publishedAt" := VDate (publishedAt m)]>
    (<["tags" := VArr (VStr <$> tags m)]> ∅))) in
  let with_updated :=
    match updatedAt m with
    | Some time => <["updatedAt" := VDate time]> required
    | None => required
    end in
  match draft m with
  | Some b => <["draft" := VBool b]> with_updated
  | None => with_updated
  end.

End Schema.

(** ** What the pages import *)

(** The result of reading or compiling one MDX file. *)
Record MdxSource := {
  frontmatter : gmap string Js.Value;
  compiledSource : string
}.

(** The helpers and libraries the two pages call, none of them under
    [src/]: the file system, [@/utils/utils], [@/utils/md],
    [next-mdx-remote/serialize], the schema and the way the engine prints a
    date ([Date.prototype.toString]) and a number ([Number::toString]). *)
Class Collaborators := {
  getPublicPath : string -> string;
  lookupPublicFile : string -> string -> option string;
  readdirSync : string -> Js.completion (list string);
  readFileSync : string -> Js.completion string;
  readMdFile : string -> bool -> Js.completion MdxSource;
  serialize : string -> Js.completion MdxSource;
  blogMatterSchema_parse : gmap string Js.Value -> Js.completion Schema.BlogMatter;
  Date_toString : Z -> string;
  Number_toString : PrimFloat.float -> string
}.

(** ** [src/app/blog/page.tsx] *)

Module BlogIndex.
Import Js.

(** An entry of the listing: [{...matter, slug}]. *)
Record Post := {
  matter : Schema.BlogMatter;
  slug : string
}.

(** [file.split(".")[0]]. *)
Definition before_first_dot (file : string) : string :=
  default "" (head (split "." file)).

(** [post.draft !== true || IS_DEVELOPMENT]. *)
Definition listed (IS_DEVELOPMENT : bool) (post : Post) : bool :=
  negb (bool_decide (Schema.draft (matter post) = Some true)) || IS_DEVELOPMENT.

(** [(a, b) => (a.publishedAt < b.publishedAt ? 1 : -1)]. *)
Definition by_date (a b : Post) : Z :=
  if Schema.publishedAt (matter a) <? Schema.publishedAt (matter b) then 1 else -1.

Section Page.
Context `{Collaborators}.
Variable IS_DEVELOPMENT : bool.

Definition read (file : string) : completion MdxSource :=
  readMdFile
    (default "" (lookupPublicFile
                   (getPublicPath ("content/blog/" +:+ before_first_dot file)) "mdx"))
    true.

Definition to_post (files : list string) (i : nat) (md : MdxSource) : completion Post :=
  bind (blogMatterSchema_parse (frontmatter md)) (fun m =>
    match files !! i with
    | Some file => Return {| matter := m; slug := before_first_dot file |}
    | None => Throw (TypeError "Cannot read properties of undefined (reading 'split')")
    end).

(** The posts before the filter: every file read and validated. *)
Definition posts : completion (list Post) :=
  bind (readdirSync (getPublicPath "content/blog")) (fun files =>
  bind (traverse (fun _ file => read file) 0%nat files) (fun mds =>
  traverse (to_post files) 0%nat mds)).

(** [parsed], the list the page renders, in order. *)
Definition Page : completion (list Post) :=
  bind posts (fun all =>
    Return (sort by_date (List.filter (listed IS_DEVELOPMENT) all))).

End Page.
End BlogIndex.

(** ** [src/app/blog/[slug]/page.tsx] *)

Module BlogPost.
Import Js.

(** [Metadata] of [next]. *)
Record Metadata := {
  title : string;
  description : option Value
}.

(** [String(value)], as a template literal applies it: a string is
    itself, a number and a date are printed by the engine, an array is its
    elements joined by commas (null printing as nothing there), a mapping
    is a plain object. *)
Fixpoint ToString `{Collaborators} (date : Z -> string) (v : Value) : string :=
  match v with
  | VStr s => s
  | VBool true => "true"
  | VBool false => "false"
  | VNum x => Number_toString x
  | VDate time => date time
  | VArr items =>
      String.concat ","
        (map (fun item => match item with
                          | VNull => ""
                          | _ => ToString date item
                          end) items)
  | VMap _ => "[object Object]"
  | VNull => "null"
  end.

Definition template `{Collaborators} (date : Z -> string) (v : option Value) : string :=
  match v with
  | Some x => ToString date x
  | None => "undefined"
  end.

(** The calls the page makes, in order. *)
Inductive Call :=
| Lookup (path ext : string)
| ReadFile (file : string)
| Serialize (fileContents : string)
| Validate.

(** What the page shows. *)
Record Article := {
  heading : string;
  published : Z;
  updated : option Z;
  hits_page : string;
  badges : list string;
  draft_notice : bool;
  body : option MdxSource
}.

Inductive View :=
| PostNotFound
| ArticleView (article : Article).

(** A computation with the calls it has made so far. *)
Definition Traced (A : Type) : Type := list Call * completion A.

Definition call {A} (c : Call) (r : completion A) : Traced A := ([c], r).

Definition andThen {A B} (m : Traced A) (k : A -> Traced B) : Traced B :=
  match m with
  | (calls, Return a) => let '(more, r) := k a in (calls ++ more, r)
  | (calls, Throw e) => (calls, Throw e)
  end.

#[local] Instance traced_bind : MBind Traced := fun A B k m => andThen m k.

Section Page.
Context `{Collaborators}.
Variable IS_DEVELOPMENT : bool.

(** What [console.error] has printed, and the metadata returned. *)
Definition generateMetadata (slug : string) : list Exception * Metadata :=
  match readMdFile
          (default "" (lookupPublicFile (getPublicPath ("content/blog/" +:+ slug)) "mdx"))
          false with
  | Throw e =>
      ([e], {| title := "Post Not Found"; description := Some (VStr "") |})
  | Return md =>
      ([], {| title := template Date_toString (frontmatter md !! "title") +:+ " | Blog";
              description := frontmatter md !! "summary" |})
  end.

Definition generateStaticParams : completion (list string) :=
  bind (readdirSync (getPublicPath "content/blog")) (fun filesNames =>
    Return (map path_parse_name filesNames)).

Definition Page (slug : string) : Traced View :=
  let path := getPublicPath ("content/blog/" +:+ slug) in
  file ← call (Lookup path "mdx") (Return (lookupPublicFile path "mdx"));
  match file with
  | None => ([], Return PostNotFound)
  | Some "" => ([], Return PostNotFound)
  | Some file =>
      fileContents ← call (ReadFile file) (readFileSync file);
      post ← call (Serialize fileContents) (serialize fileContents);
      matter ← call Validate (blogMatterSchema_parse (frontmatter post));
      let is_draft := bool_decide (Schema.draft matter = Some true) in
      ([], Return (ArticleView
        {| heading := Schema.title matter;
           published := Schema.publishedAt matter;
           updated := Schema.updatedAt matter;
           hits_page := "/blog/" +:+ slug;
           badges := Schema.tags matter;
           draft_notice := is_draft;
           body := if negb is_draft || IS_DEVELOPMENT then Some post else None |}))
  end.

End Page.
End BlogPost.

(** ** Heading anchors *)

Module Slugger.

Definition code (c : ascii) : Z := Z.of_N (N_of_ascii c).

Definition is_upper (c : ascii) : bool := (65 <=? code c) && (code c <=? 90).
Definition is_ascii (c : ascii) : bool := code c <? 128.

Definition lower (c : ascii) : ascii :=
  if is_upper c then ascii_of_N (Z.to_N (code c + 32)) else c.



(** The anchors are assigned by the [rehype-slug] plugin that the post
    page hands to [serialize]; it gives every heading the slug that
    [github-slugger] makes of its text.  [regex], on ASCII: the characters
    [/[\0-\x1F!-,\.\/:-@\[-\^`\{-\x7F]/] are deleted, which leaves the
    letters, the digits, the space, [-] and [_]. *)
Definition regex (c : ascii) : bool :=
  (code c <=? 31)
  || ((33 <=? code c) && (code c <=? 44))
  || (code c =? 46) || (code c =? 47)
  || ((58 <=? code c) && (code c <=? 64))
  || ((91 <=? code c) && (code c <=? 94))
  || (code c =? 96)
  || ((123 <=? code c) && (code c <=? 127)).

(** [value.toLowerCase().replace(regex, '').replace(/ /g, '-')], on the
    characters of an ASCII text. *)
Definition toLowerCase (cs : list ascii) : list ascii := map lower cs.

Definition delete_matches (cs : list ascii) : list ascii :=
  List.filter (fun c => negb (regex c)) cs.

Definition spaces_to_hyphens (cs : list ascii) : list ascii :=
  map (fun c => if Ascii.eqb c " " then "-"%char else c) cs.

Definition slug_ascii (cs : list ascii) : list ascii :=
  spaces_to_hyphens (delete_matches (toLowerCase cs)).

(** [slug(value)].  Beyond ASCII the lower case and the deletions follow
    the package's table of Unicode properties, which is not reproduced: for
    a text with such characters the result is what [beyond] says. *)
Definition slug (beyond : string -> string) (value : string) : string :=
  if forallb is_ascii (String.list_ascii_of_string value)
  then String.string_of_list_ascii (slug_ascii (String.list_ascii_of_string value))
  else beyond value.






End Slugger.

(** ** An in-memory content repository *)

Module Memory.
Import Js.

Record File := {
  path : string;
  text : string;
  decoded : gmap string Value
}.

Record Repo := {
  entries : list string;
  files : list File
}.

Definition at_path (repo : Repo) (p : string) : option File :=
  List.find (fun f => String.eqb (path f) p) (files repo).

Definition with_text (repo : Repo) (t : string) : option File :=
  List.find (fun f => String.eqb (text f) t) (files repo).

(** Modelled from the spec: [lookupPublicFile] of [src/utils/utils], which
    is missing from the sources.  Section 4.2: an item is a single file or a
    directory that holds one canonical entry file, and either form resolves
    to the canonical file; nothing is returned when there is neither. *)
Definition lookup (repo : Repo) (base ext : string) : option string :=
  let single := base +:+ "." +:+ ext in
  let nested := base +:+ "/index." +:+ ext in
  if bool_decide (is_Some (at_path repo single)) then Some single
  else if bool_decide (is_Some (at_path repo nested)) then Some nested
  else None.

Definition read_text (repo : Repo) (p : string) : completion string :=
  match at_path repo p with
  | Some f => Return (text f)
  | None => Throw (ENOENT p)
  end.

(** Modelled from the spec: [readMdFile] of [src/utils/md], which is
    missing from the sources.  Sections 4.2 and 4.3: the raw text of the
    file is retrieved, which fails when there is no such file, and its
    metadata block is decoded; with [frontmatterOnly] the body is left
    alone. *)
Definition read_md (repo : Repo) (p : string) (frontmatterOnly : bool)
  : completion MdxSource :=
  match at_path repo p with
  | Some f =>
      Return {| frontmatter := decoded f;
                compiledSource := if frontmatterOnly then "" else text f |}
  | None => Throw (ENOENT p)
  end.

Definition compile (repo : Repo) (fileContents : string) : completion MdxSource :=
  match with_text repo fileContents with
  | Some f => Return {| frontmatter := decoded f; compiledSource := fileContents |}
  | None => Throw (MDXError "Could not parse expression")
  end.

Definition collaborators (repo : Repo) : Collaborators :=
  {| getPublicPath := fun p => "public/" +:+ p;
     lookupPublicFile := lookup repo;
     readdirSync := fun dir =>
       if String.eqb dir "public/content/blog" then Return (entries repo)
       else Throw (ENOENT dir);
     readFileSync := read_text repo;
     readMdFile := read_md repo;
     serialize := compile repo;
     blogMatterSchema_parse := Schema.parse;
     Date_toString := fun time => pretty time;
     Number_toString := fun _ => "0" |}.

(** Front matter as the posts of the repository write it. *)
Definition front (title summary publishedAt : string) (tags : Value)
  : gmap string Value :=
  <["title" := VStr title]>
  (<["summary" := VStr summary]>
  (<["publishedAt" := VStr publishedAt]>
  (<["tags" := tags]> ∅))).

Definition post_file (name : string) (fm : gmap string Value) : File :=
  {| path := "public/content/blog/" +:+ name; text := "--- " +:+ name; decoded := fm |}.

(** Scenario 1 of the spec: [hello.mdx]. *)
Definition hello : gmap string Value := front "Hello" "s" "2024-01-01" (VStr "World").

Definition hello_repo : Repo :=
  {| entries := ["hello.mdx"]; files := [post_file "hello.mdx" hello] |}.

(** Scenario 2: two posts, the older one enumerated first. *)
Definition january : gmap string Value := front "January" "s" "2024-01-01" (VStr "News").
Definition june : gmap string Value := front "June" "s" "2024-06-01" (VStr "News").

Definition two_posts : Repo :=
  {| entries := ["january.mdx"; "june.mdx"];
     files := [post_file "january.mdx" january; post_file "june.mdx" june] |}.

(** A draft beside a published post; the draft is a directory with an
    [index.mdx]. *)
Definition sketch : gmap string Value := <["draft" := VBool true]> june.

Definition with_draft : Repo :=
  {| entries := ["january.mdx"; "sketch"];
     files := [post_file "january.mdx" january; post_file "sketch/index.mdx" sketch] |}.

(** Scenario 4: a post whose front matter has no [summary]. *)
Definition no_summary : Repo :=
  {| entries := ["january.mdx"; "broken.mdx"];
     files := [post_file "january.mdx" january;
               post_file "broken.mdx" (delete "summary" june)] |}.

(** The listing entries of these posts. *)
Definition entry (title : string) (time : Z) (draft : bool) (slug : string)
  : BlogIndex.Post :=
  {| BlogIndex.matter :=
       {| Schema.title := title; Schema.summary := "s";
          Schema.publishedAt := time; Schema.updatedAt := None;
          Schema.tags := ["News"]; Schema.draft := Some draft |};
     BlogIndex.slug := slug |}.

Definition january_entry : BlogIndex.Post :=
  entry "January" 1704067200000 false "january".
Definition june_entry : BlogIndex.Post :=
  entry "June" 1717200000000 false "june".
Definition sketch_entry : BlogIndex.Post :=
  entry "June" 1717200000000 true "sketch".

(** A file whose name has two dots. *)
Definition two_dots : Repo :=
  {| entries := ["my.post.mdx"];
     files := [post_file "my.post.mdx" january] |}.

End Memory.

(** ** What the listing page renders *)

Module BlogIndexView.
Import Js BlogIndex.

(** One [<li>] of the listing. *)
Record Item := {
  key : string;
  rule_above : bool;
  href : string;
  heading : list string;
  published : Z;
  badges : list string;
  summary : string
}.

(** [post.tags.slice(0, 3).map((tag, i) => post.tags.length > 3 && i == 2
    ? `+${post.tags.length - 2}` : tag)]: the texts of the badges. *)
Definition tag_badges (tags : list string) : list string :=
  imap (fun i tag =>
          if (3 <? Z.of_nat (length tags)) && (Z.of_nat i =? 2)
          then "+" +:+ pretty (Z.of_nat (length tags) - 2)
          else tag)
       (take 3 tags).

(** The children of the [<h2>]: [{post.title}{post.draft && " (draft)"}]. *)
Definition heading_of (post : Post) : list string :=
  Schema.title (matter post)
    :: (if bool_decide (Schema.draft (matter post) = Some true)
        then [" (draft)"] else []).

Definition render_item (i : nat) (post : Post) : Item :=
  {| key := slug post;
     rule_above := negb (Nat.eqb i 0);
     href := "/blog/" +:+ slug post;
     heading := heading_of post;
     published := Schema.publishedAt (matter post);
     badges := tag_badges (Schema.tags (matter post));
     summary := Schema.summary (matter post) |}.

(** [parsed.map((post, i) => <li key={post.slug}>...</li>)]. *)
Definition render (parsed : list Post) : list Item := imap render_item parsed.

End BlogIndexView.

(** ** File names and more repositories *)

Module Fixtures.
Import Js Memory.

(** A file name with one extension after a stem that is not empty, or
    with no dot at all (a directory). *)
Definition simple_name (file : string) : Prop :=
  Forall plain (String.list_ascii_of_string file) \/
  exists stem ext,
    file = stem +:+ String "." ext /\ stem <> "" /\
    Forall plain (String.list_ascii_of_string stem) /\
    Forall plain (String.list_ascii_of_string ext).

(** Two posts of the same day. *)
Definition morning : gmap string Value := front "Morning" "s" "2024-01-01" (VStr "News").
Definition evening : gmap string Value := front "Evening" "s" "2024-01-01" (VStr "News").

Definition same_day : Repo :=
  {| entries := ["morning.mdx"; "evening.mdx"];
     files := [post_file "morning.mdx" morning; post_file "evening.mdx" evening] |}.

Definition morning_entry : BlogIndex.Post := entry "Morning" 1704067200000 false "morning".
Definition evening_entry : BlogIndex.Post := entry "Evening" 1704067200000 false "evening".

(** A post beside a file the operating system left in the directory. *)
Definition stray : Repo :=
  {| entries := ["january.mdx"; ".DS_Store"];
     files := [post_file "january.mdx" january;
               {| path := "public/content/blog/.DS_Store"; text := "Bud1";
                  decoded := ∅ |}] |}.


(** The page of [january.mdx] in the repository [with_draft]. *)
Definition january_calls : list BlogPost.Call :=
  [BlogPost.Lookup "public/content/blog/january" "mdx";
   BlogPost.ReadFile "public/content/blog/january.mdx";
   BlogPost.Serialize "--- january.mdx";
   BlogPost.Validate].

Definition january_article : BlogPost.Article :=
  {| BlogPost.heading := "January";
     BlogPost.published := 1704067200000;
     BlogPost.updated := None;
     BlogPost.hits_page := "/blog/january";
     BlogPost.badges := ["News"];
     BlogPost.draft_notice := false;
     BlogPost.body := Some {| frontmatter := january;
                              compiledSource := "--- january.mdx" |} |}.

End Fixtures.

(** * Properties *)

(** ** The runtime *)

Section Runtime.
Import Js.

(** [split] returns at least one part, so [split(".")[0]] is defined. *)
Lemma split_not_empty sep s : split sep s <> [].
Proof.
  destruct s as [|c rest]; simpl; [discriminate|].
  destruct (Ascii.eqb c sep); [discriminate|].
  destruct (split sep rest); discriminate.
Qed.

Lemma split_no_separator sep s :
  sep ∉ String.list_ascii_of_string s -> split sep s = [s].
Proof.
  induction s as [|c rest IH]; simpl; intros Hnot; [reflexivity|].
  apply not_elem_of_cons in Hnot as [Hne Hrest].
  destruct (Ascii.eqb_spec c sep) as [->|_]; [congruence|].
  rewrite (IH Hrest). reflexivity.
Qed.

Context {A B : Type}.

Lemma traverse_lookup (f : nat -> A -> completion B) l : forall i ys j x,
  traverse f i l = Return ys -> l !! j = Some x ->
  exists y, ys !! j = Some y /\ f (i + j)%nat x = Return y.
Proof.
  induction l as [|x0 l IH]; simpl; intros i ys j x Hret Hx; [discriminate|].
  destruct (f i x0) as [y0|e] eqn:Hhead; simpl in Hret; [|discriminate].
  destruct (traverse f (S i) l) as [ys'|e] eqn:Hrest; simpl in Hret; [|discriminate].
  injection Hret as <-.
  destruct j as [|j]; simpl in *.
  - injection Hx as <-. exists y0. rewrite Nat.add_0_r. auto.
  - destruct (IH (S i) ys' j x Hrest Hx) as (y & Hy & Hf).
    exists y. split; [exact Hy|]. rewrite <- Hf. f_equal. lia.
Qed.

Lemma traverse_throws (f : nat -> A -> completion B) l : forall i j x e,
  l !! j = Some x -> f (i + j)%nat x = Throw e ->
  exists e', traverse f i l = Throw e'.
Proof.
  induction l as [|x0 l IH]; simpl; intros i j x e Hx Hf; [discriminate|].
  destruct j as [|j]; simpl in *.
  - injection Hx as ->. rewrite Nat.add_0_r in Hf. rewrite Hf. simpl. eauto.
  - destruct (f i x0) as [y0|e0]; simpl; [|eauto].
    destruct (IH (S i) j x e Hx) as [e' He'].
    + rewrite <- Hf. f_equal. lia.
    + rewrite He'. simpl. eauto.
Qed.

Lemma insert_permutation (comparefn : A -> A -> Z) pivot sorted :
  insert comparefn pivot sorted ≡ₚ pivot :: sorted.
Proof.
  induction sorted as [|element rest IH]; simpl; [reflexivity|].
  destruct (comparefn pivot element <? 0); [reflexivity|].
  rewrite IH. apply Permutation_swap.
Qed.

Lemma sort_from_permutation (comparefn : A -> A -> Z) array : forall sorted,
  fold_left (fun acc pivot => insert comparefn pivot acc) array sorted
    ≡ₚ sorted ++ array.
Proof.
  induction array as [|pivot rest IH]; simpl; intros sorted.
  - rewrite app_nil_r. reflexivity.
  - rewrite IH, insert_permutation. simpl. apply Permutation_middle.
Qed.

Lemma sort_permutation (comparefn : A -> A -> Z) array :
  sort comparefn array ≡ₚ array.
Proof. unfold sort. apply (sort_from_permutation comparefn array []). Qed.

(** Where the comparison function, by its sign, tells the truth about an
    order [R], inserting keeps a list sorted by [R]. *)
Section Order.
Variable comparefn : A -> A -> Z.
Variable R : A -> A -> Prop.
Hypothesis before : forall a b, comparefn a b < 0 -> R a b.
Hypothesis after : forall a b, ~ comparefn a b < 0 -> R b a.

Lemma insert_HdRel pivot sorted x :
  R x pivot -> HdRel R x sorted -> HdRel R x (insert comparefn pivot sorted).
Proof.
  intros Hx Hhd. destruct sorted as [|element rest]; simpl.
  - constructor. exact Hx.
  - destruct (comparefn pivot element <? 0); constructor;
      [exact Hx | inversion Hhd; assumption].
Qed.

Lemma insert_sorted pivot sorted :
  Sorted R sorted -> Sorted R (insert comparefn pivot sorted).
Proof.
  induction 1 as [|element rest Hrest IH Hhd]; simpl.
  - repeat constructor.
  - destruct (Z.ltb_spec (comparefn pivot element) 0) as [Hlt|Hge].
    + constructor; [constructor; assumption|]. constructor. apply before, Hlt.
    + constructor; [exact IH|]. apply insert_HdRel; [|exact Hhd].
      apply after. lia.
Qed.

Lemma sort_sorted array : Sorted R (sort comparefn array).
Proof.
  unfold sort. generalize (Sorted_nil R). generalize (@nil A).
  induction array as [|pivot rest IH]; simpl; intros acc Hacc; [exact Hacc|].
  apply IH, insert_sorted, Hacc.
Qed.

End Order.

Lemma Sorted_adjacent (R : A -> A -> Prop) l : Sorted R l ->
  forall i a b, l !! i = Some a -> l !! S i = Some b -> R a b.
Proof.
  induction 1 as [|x l Hl IH Hhd]; intros i a b Ha Hb; [discriminate|].
  destruct i as [|i]; simpl in *.
  - injection Ha as <-. destruct Hhd as [|y l' Hxy]; [discriminate|].
    simpl in Hb. injection Hb as <-. exact Hxy.
  - eapply IH; eassumption.
Qed.

End Runtime.

(** ** The listing page *)

Section Listing.
Import Js BlogIndex.
Context `{Collaborators}.

Lemma by_date_before (a b : Post) :
  by_date a b < 0 ->
  Schema.publishedAt (matter a) >= Schema.publishedAt (matter b).
Proof.
  unfold by_date.
  destruct (Z.ltb_spec (Schema.publishedAt (matter a)) (Schema.publishedAt (matter b)));
    lia.
Qed.

Lemma by_date_after (a b : Post) :
  ~ by_date a b < 0 ->
  Schema.publishedAt (matter b) >= Schema.publishedAt (matter a).
Proof.
  unfold by_date.
  destruct (Z.ltb_spec (Schema.publishedAt (matter a)) (Schema.publishedAt (matter b)));
    lia.
Qed.

Lemma Page_of_posts (IS_DEVELOPMENT : bool) (all : list Post) :
  posts = Return all ->
  Page IS_DEVELOPMENT = Return (sort by_date (List.filter (listed IS_DEVELOPMENT) all)).
Proof. intros Hall. unfold Page. rewrite Hall. reflexivity. Qed.

Lemma Page_returns_inv (IS_DEVELOPMENT : bool) (listing : list Post) :
  Page IS_DEVELOPMENT = Return listing ->
  exists all, posts = Return all /\
    listing = sort by_date (List.filter (listed IS_DEVELOPMENT) all).
Proof.
  unfold Page. destruct posts as [all|e]; simpl; [|discriminate].
  intros [= <-]. eauto.
Qed.

Lemma elem_of_listing (IS_DEVELOPMENT : bool) (all : list Post) (post : Post) :
  post ∈ sort by_date (List.filter (listed IS_DEVELOPMENT) all) <->
  post ∈ all /\ listed IS_DEVELOPMENT post = true.
Proof.
  rewrite sort_permutation, !list_elem_of_In. apply filter_In.
Qed.

(** C1. The listing comes out newest first: of two entries that stand next
    to each other the first is published no earlier than the second; so of
    two posts of different dates the later one is listed first. *)
Theorem index_sorted_by_date (IS_DEVELOPMENT : bool) (listing : list Post) :
  Page IS_DEVELOPMENT = Return listing ->
  (forall i a b, listing !! i = Some a -> listing !! S i = Some b ->
     Schema.publishedAt (matter a) >= Schema.publishedAt (matter b)) /\
  (forall older newer, listing ≡ₚ [older; newer] ->
     Schema.publishedAt (matter older) < Schema.publishedAt (matter newer) ->
     listing = [newer; older]).
Proof.
  intros Hpage.
  assert (Hadjacent : forall i a b, listing !! i = Some a -> listing !! S i = Some b ->
            Schema.publishedAt (matter a) >= Schema.publishedAt (matter b)).
  { destruct (Page_returns_inv _ _ Hpage) as (all & _ & ->).
    apply Sorted_adjacent, (sort_sorted by_date); [apply by_date_before|].
    intros a b Hnot. apply by_date_after, Hnot. }
  split; [exact Hadjacent|].
  intros older newer Hperm Hlt.
  symmetry in Hperm. apply Permutation_length_2_inv in Hperm as [->| ->];
    [|reflexivity].
  specialize (Hadjacent 0%nat older newer eq_refl eq_refl). lia.
Qed.

(** C2. A draft is left out of the production listing and is in the
    development listing; a post that is not a draft is in both. *)
Theorem drafts_listed_only_in_development (all : list Post) (post : Post) :
  posts = Return all -> post ∈ all ->
  exists production development,
    Page false = Return production /\ Page true = Return development /\
    post ∈ development /\
    (Schema.draft (matter post) = Some true -> post ∉ production) /\
    (Schema.draft (matter post) <> Some true -> post ∈ production).
Proof.
  intros Hall Hin.
  exists (sort by_date (List.filter (listed false) all)),
         (sort by_date (List.filter (listed true) all)).
  split; [apply Page_of_posts, Hall|].
  split; [apply Page_of_posts, Hall|].
  rewrite !elem_of_listing. unfold listed.
  split; [|split].
  - split; [exact Hin|]. apply orb_true_r.
  - intros Hdraft [_ Hkept]. rewrite bool_decide_eq_true_2 in Hkept by exact Hdraft.
    discriminate.
  - intros Hnot. split; [exact Hin|].
    rewrite bool_decide_eq_false_2 by exact Hnot. reflexivity.
Qed.

(** C3. One post whose front matter the schema rejects fails the whole
    listing: the page throws, and returns no listing without that post. *)
Theorem invalid_metadata_aborts_listing (IS_DEVELOPMENT : bool)
    (files : list string) (i : nat) (file : string) (md : MdxSource) (e : Exception) :
  readdirSync (getPublicPath "content/blog") = Return files ->
  files !! i = Some file ->
  read file = Return md ->
  blogMatterSchema_parse (frontmatter md) = Throw e ->
  (exists e', Page IS_DEVELOPMENT = Throw e') /\
  (forall listing, Page IS_DEVELOPMENT <> Return listing).
Proof.
  intros Hdir Hfile Hread Hparse.
  assert (Hthrows : exists e', Page IS_DEVELOPMENT = Throw e');
    [|split; [exact Hthrows|]; destruct Hthrows as [e' ->]; discriminate].
  unfold Page, posts. rewrite Hdir. simpl.
  destruct (traverse (fun _ f => read f) 0%nat files) as [mds|e0] eqn:Hmds; simpl;
    [|eauto].
  destruct (traverse_lookup _ _ _ _ _ _ Hmds Hfile) as (md' & Hmd' & Hread').
  rewrite Hread in Hread'. injection Hread' as <-.
  destruct (traverse_throws (to_post files) mds 0%nat i md e Hmd') as [e' He'].
  - unfold to_post. simpl. rewrite Hparse. reflexivity.
  - rewrite He'. simpl. eauto.
Qed.

End Listing.

(** Scenario 2 of the spec: the post of 2024-06-01 is listed before the
    post of 2024-01-01, though it is enumerated after it. *)
Lemma index_lists_june_first :
  @BlogIndex.Page (Memory.collaborators Memory.two_posts) false
    = Js.Return [Memory.june_entry; Memory.january_entry] /\
  Schema.publishedAt (BlogIndex.matter Memory.june_entry)
    >= Schema.publishedAt (BlogIndex.matter Memory.january_entry).
Proof.
  split; [vm_compute; reflexivity|].
  apply (proj1 (@index_sorted_by_date (Memory.collaborators Memory.two_posts) false
                  [Memory.june_entry; Memory.january_entry] eq_refl)
           0%nat Memory.june_entry Memory.january_entry eq_refl eq_refl).
Defined.

(** The draft of the repository [with_draft] is listed in development
    only. *)
Lemma sketch_listed_only_in_development :
  exists production development,
    @BlogIndex.Page (Memory.collaborators Memory.with_draft) false = Js.Return production /\
    @BlogIndex.Page (Memory.collaborators Memory.with_draft) true = Js.Return development /\
    Memory.sketch_entry ∈ development /\
    (Schema.draft (BlogIndex.matter Memory.sketch_entry) = Some true ->
       Memory.sketch_entry ∉ production) /\
    (Schema.draft (BlogIndex.matter Memory.sketch_entry) <> Some true ->
       Memory.sketch_entry ∈ production).
Proof.
  apply (@drafts_listed_only_in_development (Memory.collaborators Memory.with_draft)
           [Memory.january_entry; Memory.sketch_entry] Memory.sketch_entry).
  - vm_compute; reflexivity.
  - apply list_elem_of_In. simpl. auto.
Defined.

(** Scenario 4 of the spec: a post without [summary] fails the listing
    with the schema's error. *)
Lemma missing_summary_aborts_listing :
  @BlogIndex.Page (Memory.collaborators Memory.no_summary) false
    = Js.Throw (Js.ZodError [Js.Required "summary"]) /\
  forall listing,
    @BlogIndex.Page (Memory.collaborators Memory.no_summary) false <> Js.Return listing.
Proof.
  split; [vm_compute; reflexivity|].
  apply (@invalid_metadata_aborts_listing (Memory.collaborators Memory.no_summary) false
           ["january.mdx"; "broken.mdx"] 1%nat "broken.mdx"
           {| frontmatter := delete "summary" Memory.june; compiledSource := "" |}
           (Js.ZodError [Js.Required "summary"])).
  - vm_compute; reflexivity.
  - reflexivity.
  - vm_compute; reflexivity.
  - vm_compute; reflexivity.
Defined.

(** ** The post page *)

Section Post.
Import Js BlogPost.
Context `{Collaborators}.

(** C4. A slug with no content file behind it gets the "Post not Found"
    view: the page returns, and after the lookup it reads no file, compiles
    no body and validates nothing. *)
Theorem missing_post_not_found (IS_DEVELOPMENT : bool) (slug : string) :
  lookupPublicFile (getPublicPath ("content/blog/" +:+ slug)) "mdx" = None ->
  Page IS_DEVELOPMENT slug
    = ([Lookup (getPublicPath ("content/blog/" +:+ slug)) "mdx"], Return PostNotFound).
Proof.
  intros Hmissing. unfold Page, mbind, traced_bind, andThen, call.
  rewrite Hmissing. reflexivity.
Qed.

Lemma Page_of_file (IS_DEVELOPMENT : bool) (slug file fileContents : string)
    (post : MdxSource) (matter : Schema.BlogMatter) :
  lookupPublicFile (getPublicPath ("content/blog/" +:+ slug)) "mdx" = Some file ->
  file <> "" ->
  readFileSync file = Return fileContents ->
  serialize fileContents = Return post ->
  blogMatterSchema_parse (frontmatter post) = Return matter ->
  Page IS_DEVELOPMENT slug
    = ([Lookup (getPublicPath ("content/blog/" +:+ slug)) "mdx"; ReadFile file;
        Serialize fileContents; Validate],
       Return (ArticleView
         {| heading := Schema.title matter;
            published := Schema.publishedAt matter;
            updated := Schema.updatedAt matter;
            hits_page := "/blog/" +:+ slug;
            badges := Schema.tags matter;
            draft_notice := bool_decide (Schema.draft matter = Some true);
            body := if negb (bool_decide (Schema.draft matter = Some true))
                       || IS_DEVELOPMENT
                    then Some post else None |})).
Proof.
  intros Hfile Hname Hread Hpost Hmatter.
  unfold Page, mbind, traced_bind, andThen, call. rewrite Hfile.
  destruct file as [|c rest]; [congruence|].
  rewrite Hread, Hpost, Hmatter. reflexivity.
Qed.

(** C9. The page of a draft shows its title, its date and its tags with
    the draft notice; the body is there in a development build and is left
    out otherwise. *)
Theorem draft_body_only_in_development (IS_DEVELOPMENT : bool)
    (slug file fileContents : string) (post : MdxSource) (matter : Schema.BlogMatter) :
  lookupPublicFile (getPublicPath ("content/blog/" +:+ slug)) "mdx" = Some file ->
  file <> "" ->
  readFileSync file = Return fileContents ->
  serialize fileContents = Return post ->
  blogMatterSchema_parse (frontmatter post) = Return matter ->
  Schema.draft matter = Some true ->
  exists calls article,
    Page IS_DEVELOPMENT slug = (calls, Return (ArticleView article)) /\
    heading article = Schema.title matter /\
    published article = Schema.publishedAt matter /\
    badges article = Schema.tags matter /\
    draft_notice article = true /\
    body article = if IS_DEVELOPMENT then Some post else None.
Proof.
  intros Hfile Hname Hread Hpost Hmatter Hdraft.
  eexists _, _. split; [eapply Page_of_file; eassumption|]. simpl.
  rewrite bool_decide_eq_true_2 by exact Hdraft. auto.
Qed.


End Post.

(** The draft of the repository [with_draft]: with its notice, and without
    its body in a production build. *)
Lemma sketch_page_in_production :
  exists calls article,
    @BlogPost.Page (Memory.collaborators Memory.with_draft) false "sketch"
      = (calls, Js.Return (BlogPost.ArticleView article)) /\
    BlogPost.heading article = "June" /\
    BlogPost.published article = 1717200000000 /\
    BlogPost.badges article = ["News"] /\
    BlogPost.draft_notice article = true /\
    BlogPost.body article = None.
Proof.
  apply (@draft_body_only_in_development (Memory.collaborators Memory.with_draft) false
           "sketch" "public/content/blog/sketch/index.mdx" "--- sketch/index.mdx"
           {| frontmatter := Memory.sketch; compiledSource := "--- sketch/index.mdx" |}
           (BlogIndex.matter Memory.sketch_entry)).
  - vm_compute; reflexivity.
  - discriminate.
  - vm_compute; reflexivity.
  - vm_compute; reflexivity.
  - vm_compute; reflexivity.
  - reflexivity.
Defined.

(** A slug of the repository [with_draft] that has no file. *)
Lemma nothing_not_found :
  @BlogPost.Page (Memory.collaborators Memory.with_draft) true "nothing"
    = ([BlogPost.Lookup "public/content/blog/nothing" "mdx"],
       Js.Return BlogPost.PostNotFound).
Proof.
  apply (@missing_post_not_found (Memory.collaborators Memory.with_draft) true "nothing").
  vm_compute; reflexivity.
Defined.


(** ** The two derivations of a slug *)

Section Derivations.
Import Js.

Lemma chars_app (s1 s2 : string) :
  String.list_ascii_of_string (s1 +:+ s2)
    = String.list_ascii_of_string s1 ++ String.list_ascii_of_string s2.
Proof.
  induction s1 as [|c rest IH]; [reflexivity|].
  change (c :: String.list_ascii_of_string (rest +:+ s2)
          = c :: String.list_ascii_of_string rest ++ String.list_ascii_of_string s2).
  rewrite IH. reflexivity.
Qed.

Lemma split_at_first_dot (stem rest : string) :
  Forall plain (String.list_ascii_of_string stem) ->
  split "." (stem +:+ String "." rest) = stem :: split "." rest.
Proof.
  induction stem as [|c stem IH]; intros Hplain; [reflexivity|].
  apply Forall_cons in Hplain as [[Hdot _] Hplain].
  change (split "." (String c (stem +:+ String "." rest))
          = String c stem :: split "." rest).
  simpl. destruct (Ascii.eqb_spec c ".") as [->|_]; [congruence|].
  rewrite (IH Hplain). reflexivity.
Qed.

Lemma split_plain (name : string) :
  Forall plain (String.list_ascii_of_string name) -> split "." name = [name].
Proof.
  intros Hplain. apply split_no_separator. intros Hin.
  rewrite Forall_forall in Hplain. destruct (Hplain _ Hin) as [Hdot _]. congruence.
Qed.

Lemma scan_step_plain st i c : plain c ->
  scan_step st i c
    = {| startDot := startDot st; startPart := startPart st;
         end_ := if end_ st =? -1 then i + 1 else end_ st;
         matchedSlash := if end_ st =? -1 then false else matchedSlash st;
         preDotState := if negb (startDot st =? -1) then -1 else preDotState st;
         broke := broke st |}.
Proof.
  intros [Hdot Hslash]. unfold scan_step.
  destruct (Ascii.eqb_spec c "/") as [->|_]; [congruence|].
  destruct (Ascii.eqb_spec c ".") as [->|_]; [congruence|].
  destruct st as [sd sp e ms pd br]; simpl.
  destruct (e =? -1); simpl; destruct (sd =? -1); reflexivity.
Qed.

(** The characters after the last dot: they set [end] and nothing else. *)
Lemma scan_extension cs rest : forall i e ms,
  Forall plain cs -> Z.of_nat (length cs) <= i + 1 ->
  scan (cs ++ rest) i 0
    {| startDot := -1; startPart := 0; end_ := e; matchedSlash := ms;
       preDotState := 0; broke := false |}
  = scan rest (i - Z.of_nat (length cs)) 0
      {| startDot := -1; startPart := 0;
         end_ := match cs with [] => e | _ => if e =? -1 then i + 1 else e end;
         matchedSlash := match cs with [] => ms | _ => if e =? -1 then false else ms end;
         preDotState := 0; broke := false |}.
Proof.
  induction cs as [|c cs IH]; intros i e ms Hplain Hlen.
  - simpl. rewrite Z.sub_0_r. reflexivity.
  - apply Forall_cons in Hplain as [Hc Hplain]. simpl length in Hlen.
    change ((c :: cs) ++ rest) with (c :: cs ++ rest). cbn [scan].
    destruct (Z.ltb_spec i 0) as [Hneg|_]; [lia|]. cbn [orb broke].
    rewrite (scan_step_plain _ i c Hc). cbn [startDot startPart end_ matchedSlash
      preDotState broke Z.eqb negb].
    rewrite IH by (auto; lia).
    replace (i - 1 - Z.of_nat (length cs)) with (i - Z.of_nat (length (c :: cs)))
      by (simpl length; lia).
    f_equal. destruct (Z.eqb_spec e (-1)) as [->|He].
    + destruct cs; [reflexivity|].
      destruct (Z.eqb_spec (i + 1) (-1)); [lia|]. reflexivity.
    + destruct cs; [reflexivity|].
      destruct (Z.eqb_spec e (-1)); [lia|]. reflexivity.
Qed.

(** The characters before the last dot: they set [preDotState] to -1. *)
Lemma scan_stem cs : forall i d e ms pd,
  Forall plain cs -> Z.of_nat (length cs) <= i + 1 -> d <> -1 -> e <> -1 ->
  scan cs i 0
    {| startDot := d; startPart := 0; end_ := e; matchedSlash := ms;
       preDotState := pd; broke := false |}
  = {| startDot := d; startPart := 0; end_ := e; matchedSlash := ms;
       preDotState := match cs with [] => pd | _ => -1 end; broke := false |}.
Proof.
  induction cs as [|c cs IH]; intros i d e ms pd Hplain Hlen Hd He; [reflexivity|].
  apply Forall_cons in Hplain as [Hc Hplain]. simpl length in Hlen.
  cbn [scan]. destruct (Z.ltb_spec i 0) as [Hneg|_]; [lia|]. cbn [orb broke].
  rewrite (scan_step_plain _ i c Hc). cbn [startDot startPart end_ matchedSlash
    preDotState broke].
  destruct (Z.eqb_spec e (-1)); [lia|]. destruct (Z.eqb_spec d (-1)); [lia|].
  cbn [negb]. rewrite IH by (auto; lia). destruct cs; reflexivity.
Qed.

Lemma scan_step_last_dot i e ms :
  scan_step {| startDot := -1; startPart := 0; end_ := e; matchedSlash := ms;
               preDotState := 0; broke := false |} i "."
  = {| startDot := i; startPart := 0; end_ := if e =? -1 then i + 1 else e;
       matchedSlash := if e =? -1 then false else ms;
       preDotState := 0; broke := false |}.
Proof. unfold scan_step. simpl. destruct (e =? -1); reflexivity. Qed.

Lemma scan_plain_name (name : list ascii) :
  name <> [] -> Forall plain name ->
  scan (rev name) (Z.of_nat (length name) - 1) 0 scan_init
  = {| startDot := -1; startPart := 0; end_ := Z.of_nat (length name);
       matchedSlash := false; preDotState := 0; broke := false |}.
Proof.
  intros Hname Hplain. unfold scan_init.
  rewrite <- (app_nil_r (rev name)).
  rewrite scan_extension
    by first [apply Forall_rev, Hplain | rewrite length_rev; lia].
  simpl scan.
  destruct (rev name) eqn:Hrev.
  { apply (f_equal length) in Hrev. rewrite length_rev in Hrev.
    destruct name; [congruence|discriminate]. }
  change (-1 =? -1) with true. cbv iota. f_equal. lia.
Qed.

Lemma scan_single_extension (stem ext : list ascii) :
  stem <> [] -> Forall plain stem -> Forall plain ext ->
  scan (rev (stem ++ "."%char :: ext))
       (Z.of_nat (length (stem ++ "."%char :: ext)) - 1) 0 scan_init
  = {| startDot := Z.of_nat (length stem); startPart := 0;
       end_ := Z.of_nat (length (stem ++ "."%char :: ext));
       matchedSlash := false; preDotState := -1; broke := false |}.
Proof.
  intros Hstem Hs He.
  assert (Hlen : (1 <= length stem)%nat) by (destruct stem; [congruence|simpl; lia]).
  rewrite rev_app_distr. change (rev ("."%char :: ext)) with (rev ext ++ ["."%char]).
  rewrite <- app_assoc, length_app. simpl length. unfold scan_init.
  rewrite scan_extension
    by first [apply Forall_rev, He | rewrite length_rev; lia].
  rewrite length_rev.
  change (["."%char] ++ rev stem) with ("."%char :: rev stem). cbn [scan].
  destruct (Z.ltb_spec (Z.of_nat (length stem + S (length ext)) - 1
                        - Z.of_nat (length ext)) 0) as [Hneg|_]; [lia|].
  cbn [orb broke]. rewrite scan_step_last_dot.
  rewrite scan_stem; [| apply Forall_rev, Hs | rewrite length_rev; lia | lia |].
  - destruct (rev stem) eqn:Hrev.
    { apply (f_equal length) in Hrev. rewrite length_rev in Hrev. simpl in Hrev. lia. }
    assert (Hext : length (rev ext) = length ext) by apply length_rev.
    destruct (rev ext); simpl in Hext; change (-1 =? -1) with true; cbv iota;
      try (destruct (Z.eqb_spec (Z.of_nat (length stem + S (length ext)) - 1 + 1) (-1));
           [lia|]);
      f_equal; lia.
  - assert (Hext : length (rev ext) = length ext) by apply length_rev.
    destruct (rev ext); simpl in Hext; change (-1 =? -1) with true; cbv iota;
      try (destruct (Z.eqb_spec (Z.of_nat (length stem + S (length ext)) - 1 + 1) (-1)));
      lia.
Qed.

Lemma parse_name_plain (name : list ascii) :
  Forall plain name -> parse_name name = name.
Proof.
  intros Hplain. destruct name as [|c cs]; [reflexivity|].
  assert (Hc : plain c) by (apply Forall_cons in Hplain; tauto).
  unfold parse_name.
  destruct (Ascii.eqb_spec c "/") as [->|_]; [destruct Hc; congruence|].
  unfold name_from. cbv zeta. rewrite scan_plain_name by (auto; discriminate).
  cbn [startDot startPart end_ preDotState].
  destruct (Z.eqb_spec (Z.of_nat (length (c :: cs))) (-1)); [lia|].
  change (-1 =? -1) with true. cbn [negb andb orb]. change (0 =? 0) with true.
  cbn [andb]. unfold slice.
  rewrite Z.sub_0_r, Nat2Z.id. change (Z.to_nat 0) with 0%nat.
  rewrite drop_0. apply take_ge. lia.
Qed.

Lemma parse_name_single_extension (stem ext : list ascii) :
  stem <> [] -> Forall plain stem -> Forall plain ext ->
  parse_name (stem ++ "."%char :: ext) = stem.
Proof.
  intros Hstem Hs He.
  assert (Hfirst : exists c rest, stem ++ "."%char :: ext = c :: rest /\ plain c).
  { destruct stem as [|c cs]; [congruence|]. exists c, (cs ++ "."%char :: ext).
    split; [reflexivity|]. apply Forall_cons in Hs. tauto. }
  destruct Hfirst as (c & rest & Hcodes & Hc).
  unfold parse_name. rewrite Hcodes at 1.
  destruct (Ascii.eqb_spec c "/") as [->|_]; [destruct Hc; congruence|].
  unfold name_from. cbv zeta. rewrite scan_single_extension by assumption.
  cbn [startDot startPart end_ preDotState].
  assert (Hlen : (1 <= length stem)%nat) by (destruct stem; [congruence|simpl; lia]).
  destruct (Z.eqb_spec (Z.of_nat (length (stem ++ "."%char :: ext))) (-1)); [lia|].
  destruct (Z.eqb_spec (Z.of_nat (length stem)) (-1)); [lia|].
  change (-1 =? 0) with false. change (-1 =? 1) with false.
  change (0 =? 0) with true. cbn [negb andb orb]. unfold slice.
  rewrite Z.sub_0_r, Nat2Z.id. change (Z.to_nat 0) with 0%nat.
  rewrite drop_0. apply take_app_length.
Qed.

(** The two derivations agree on a name with no dot (a directory) and on a
    name with one extension after a stem that is not empty. *)
Lemma derivations_agree_without_dot (name : string) :
  Forall plain (String.list_ascii_of_string name) ->
  BlogIndex.before_first_dot name = name /\ path_parse_name name = name.
Proof.
  intros Hplain. unfold BlogIndex.before_first_dot, path_parse_name.
  rewrite split_plain, parse_name_plain by exact Hplain.
  split; [reflexivity|apply String.string_of_list_ascii_of_string].
Qed.

Lemma derivations_agree_on_single_extension (stem ext : string) :
  stem <> "" ->
  Forall plain (String.list_ascii_of_string stem) ->
  Forall plain (String.list_ascii_of_string ext) ->
  BlogIndex.before_first_dot (stem +:+ String "." ext) = stem /\
  path_parse_name (stem +:+ String "." ext) = stem.
Proof.
  intros Hstem Hs He. unfold BlogIndex.before_first_dot, path_parse_name.
  rewrite split_at_first_dot by exact Hs. split; [reflexivity|].
  rewrite chars_app. change (String.list_ascii_of_string (String "." ext))
    with ("."%char :: String.list_ascii_of_string ext).
  rewrite parse_name_single_extension; auto using String.string_of_list_ascii_of_string.
  destruct stem; [congruence|discriminate].
Qed.

End Derivations.

(** C5. The listing page and the static parameters derive different slugs
    from a file name with two dots: the listing page cuts the name at its
    first dot, [path.parse] at its last; the listing page then finds no
    file for its slug and fails. *)
Theorem slug_derivations_disagree :
  BlogIndex.before_first_dot "my.post.mdx" = "my" /\
  Js.path_parse_name "my.post.mdx" = "my.post" /\
  @BlogPost.generateStaticParams (Memory.collaborators Memory.two_dots)
    = Js.Return ["my.post"] /\
  @BlogIndex.Page (Memory.collaborators Memory.two_dots) false
    = Js.Throw (Js.ENOENT "").
Proof. repeat split; vm_compute; reflexivity. Qed.

(** ** The schema *)

Section Validation.
Import Js Schema.

Lemma mapM_as_string (strings : list string) :
  mapM as_string (VStr <$> strings) = Some strings.
Proof.
  apply mapM_Some_2.
  induction strings as [|s rest IH]; constructor; [reflexivity|exact IH].
Qed.

Lemma parse_fields (raw : gmap string Value) (m : BlogMatter) :
  parse raw = Return m ->
  check_title (raw !! "title") = inr (title m) /\
  check_summary (raw !! "summary") = inr (summary m) /\
  check_publishedAt (raw !! "publishedAt") = inr (publishedAt m) /\
  check_updatedAt (raw !! "updatedAt") = inr (updatedAt m) /\
  check_tags (raw !! "tags") = inr (tags m) /\
  check_draft (raw !! "draft") = inr (draft m).
Proof.
  unfold parse.
  destruct (check_title _), (check_summary _), (check_publishedAt _),
    (check_updatedAt _), (check_tags _), (check_draft _); try discriminate.
  intros [= <-]. repeat split.
Qed.

Lemma parse_of_fields (raw : gmap string Value) (m : BlogMatter) :
  check_title (raw !! "title") = inr (title m) ->
  check_summary (raw !! "summary") = inr (summary m) ->
  check_publishedAt (raw !! "publishedAt") = inr (publishedAt m) ->
  check_updatedAt (raw !! "updatedAt") = inr (updatedAt m) ->
  check_tags (raw !! "tags") = inr (tags m) ->
  check_draft (raw !! "draft") = inr (draft m) ->
  parse raw = Return m.
Proof.
  intros Ht Hs Hp Hu Hg Hd. unfold parse.
  rewrite Ht, Hs, Hp, Hu, Hg, Hd. destruct m; reflexivity.
Qed.

Lemma check_title_not_empty v t : check_title v = inr t -> String.eqb t "" = false.
Proof.
  destruct v as [[s| | | | | |]|]; simpl; try discriminate.
  destruct (String.eqb s "") eqn:Hs; [discriminate|]. intros [= <-]. exact Hs.
Qed.

Lemma check_draft_defined v d : check_draft v = inr d -> exists b, d = Some b.
Proof.
  destruct v as [[| b | | | | |]|]; simpl; try discriminate; intros [= <-]; eauto.
Qed.

(** C6. A [tags] value that is one bare string [v] is turned into the
    sequence [[v]] before the sequence is checked: the record validates as
    it does with [tags: [v]], and its validated tags are [[v]]. *)
Theorem bare_tag_is_one_element (raw : gmap string Value) (v : string) :
  raw !! "tags" = Some (VStr v) ->
  normalize_tags (VStr v) = VArr [VStr v] /\
  check_tags (raw !! "tags") = inr [v] /\
  parse raw = parse (<["tags" := VArr [VStr v]]> raw) /\
  (forall m, parse raw = Return m -> tags m = [v]).
Proof.
  intros Htags. split; [reflexivity|].
  assert (Hcheck : check_tags (raw !! "tags") = inr [v]) by (rewrite Htags; reflexivity).
  split; [exact Hcheck|]. split.
  - unfold parse. rewrite lookup_insert_eq, Hcheck.
    rewrite !lookup_insert_ne by discriminate. reflexivity.
  - intros m Hm. apply parse_fields in Hm as (_ & _ & _ & _ & Hg & _).
    rewrite Hcheck in Hg. injection Hg as <-. reflexivity.
Qed.

(** C7. Validating a validated record again gives the same record. *)
Theorem parse_idempotent (raw : gmap string Value) (m : BlogMatter) :
  parse raw = Return m -> parse (to_object m) = Return m.
Proof.
  intros Hm. apply parse_fields in Hm as (Ht & _ & _ & _ & _ & Hd).
  apply check_title_not_empty in Ht. apply check_draft_defined in Hd as [b Hb].
  apply parse_of_fields; unfold to_object; rewrite Hb;
    destruct (updatedAt m) as [time|]; simplify_map_eq; simpl;
    rewrite ?Ht, ?mapM_as_string; reflexivity.
Qed.

End Validation.

(** Scenario 1 of the spec: [hello.mdx], whose front matter has
    [tags: World], is listed as [hello] with the tags [["World"]]. *)
Lemma hello_world_tag :
  Schema.parse Memory.hello
    = Js.Return {| Schema.title := "Hello"; Schema.summary := "s";
                   Schema.publishedAt := 1704067200000; Schema.updatedAt := None;
                   Schema.tags := ["World"]; Schema.draft := Some false |} /\
  @BlogIndex.Page (Memory.collaborators Memory.hello_repo) false
    = Js.Return [ {| BlogIndex.matter :=
                       {| Schema.title := "Hello"; Schema.summary := "s";
                          Schema.publishedAt := 1704067200000;
                          Schema.updatedAt := None;
                          Schema.tags := ["World"]; Schema.draft := Some false |};
                     BlogIndex.slug := "hello" |} ] /\
  Schema.check_tags (Memory.hello !! "tags") = inr ["World"].
Proof.
  split; [vm_compute; reflexivity|]. split; [vm_compute; reflexivity|].
  apply (proj1 (proj2 (bare_tag_is_one_element Memory.hello "World" eq_refl))).
Defined.

(** The validated [hello.mdx] validates to itself. *)
Lemma hello_validates_again :
  Schema.parse
    (Schema.to_object
       {| Schema.title := "Hello"; Schema.summary := "s";
          Schema.publishedAt := 1704067200000; Schema.updatedAt := None;
          Schema.tags := ["World"]; Schema.draft := Some false |})
    = Js.Return {| Schema.title := "Hello"; Schema.summary := "s";
                   Schema.publishedAt := 1704067200000; Schema.updatedAt := None;
                   Schema.tags := ["World"]; Schema.draft := Some false |}.
Proof.
  apply (parse_idempotent Memory.hello). vm_compute; reflexivity.
Defined.

(** ** Heading anchors *)

Section Anchors.
Import Slugger.





















End Anchors.


(** * More about the two pages *)

(** ** Reading and validating every file *)

Section Traversal.
Import Js.
Context {A B : Type}.

Lemma traverse_length (f : nat -> A -> completion B) l : forall i ys,
  traverse f i l = Return ys -> length ys = length l.
Proof.
  induction l as [|x l IH]; simpl; intros i ys Hret.
  - injection Hret as <-. reflexivity.
  - destruct (f i x) as [y|e]; simpl in Hret; [|discriminate].
    destruct (traverse f (S i) l) as [ys'|e] eqn:Hrest; simpl in Hret; [|discriminate].
    injection Hret as <-. simpl. f_equal. eapply IH, Hrest.
Qed.

Lemma traverse_lookup_inv (f : nat -> A -> completion B) l : forall i ys j y,
  traverse f i l = Return ys -> ys !! j = Some y ->
  exists x, l !! j = Some x /\ f (i + j)%nat x = Return y.
Proof.
  induction l as [|x0 l IH]; simpl; intros i ys j y Hret Hy.
  - injection Hret as <-. discriminate.
  - destruct (f i x0) as [y0|e] eqn:Hhead; simpl in Hret; [|discriminate].
    destruct (traverse f (S i) l) as [ys'|e] eqn:Hrest; simpl in Hret; [|discriminate].
    injection Hret as <-.
    destruct j as [|j]; simpl in *.
    + injection Hy as <-. exists x0. rewrite Nat.add_0_r. auto.
    + destruct (IH (S i) ys' j y Hrest Hy) as (x & Hx & Hf).
      exists x. split; [exact Hx|]. rewrite <- Hf. f_equal. lia.
Qed.

Lemma traverse_returns (f : nat -> A -> completion B) l : forall i,
  (forall j x, l !! j = Some x -> exists y, f (i + j)%nat x = Return y) ->
  exists ys, traverse f i l = Return ys.
Proof.
  induction l as [|x0 l IH]; simpl; intros i Hall; [eauto|].
  destruct (Hall 0%nat x0 eq_refl) as [y0 Hy0]. rewrite Nat.add_0_r in Hy0.
  rewrite Hy0. simpl.
  destruct (IH (S i)) as [ys Hys].
  - intros j x Hx. destruct (Hall (S j) x Hx) as [y Hy]. exists y.
    rewrite <- Hy. f_equal. lia.
  - rewrite Hys. simpl. eauto.
Qed.

End Traversal.

Section ListingFiles.
Import Js BlogIndex.
Context `{Collaborators}.

(** The posts, index by index, are the enumerated files read and
    validated. *)
Lemma posts_of_files (files : list string) (all : list Post) :
  readdirSync (getPublicPath "content/blog") = Return files ->
  posts = Return all ->
  length all = length files /\
  forall j post, all !! j = Some post ->
    exists file md,
      files !! j = Some file /\ read file = Return md /\
      blogMatterSchema_parse (frontmatter md) = Return (matter post) /\
      slug post = before_first_dot file.
Proof.
  intros Hdir. unfold posts. rewrite Hdir. simpl.
  destruct (traverse (fun _ f => read f) 0%nat files) as [mds|e] eqn:Hmds; simpl;
    [|discriminate].
  intros Hall. split.
  - rewrite (traverse_length _ _ _ _ Hall). exact (traverse_length _ _ _ _ Hmds).
  - intros j post Hpost.
    destruct (traverse_lookup_inv _ _ _ _ _ _ Hall Hpost) as (md & Hmd & Hto).
    destruct (traverse_lookup_inv _ _ _ _ _ _ Hmds Hmd) as (file & Hfile & Hread).
    exists file, md. split; [exact Hfile|]. split; [exact Hread|].
    unfold to_post in Hto. simpl in Hto. rewrite Hfile in Hto.
    destruct (blogMatterSchema_parse (frontmatter md)) as [m|e]; simpl in Hto;
      [|discriminate].
    injection Hto as <-. auto.
Qed.

Lemma posts_return_dir (all : list Post) :
  posts = Return all ->
  exists files, readdirSync (getPublicPath "content/blog") = Return files.
Proof.
  unfold posts.
  destruct (readdirSync (getPublicPath "content/blog")) as [files|e]; simpl;
    [eauto|discriminate].
Qed.

Lemma posts_return (files : list string) :
  readdirSync (getPublicPath "content/blog") = Return files ->
  (forall file, file ∈ files ->
     exists md m, read file = Return md /\
                  blogMatterSchema_parse (frontmatter md) = Return m) ->
  exists all, posts = Return all.
Proof.
  intros Hdir Hfiles. unfold posts. rewrite Hdir. simpl.
  destruct (traverse_returns (fun _ f => read f) files 0%nat) as [mds Hmds].
  { intros j file Hfile.
    destruct (Hfiles file) as (md & _ & Hread & _); [|eauto].
    apply list_elem_of_lookup. eauto. }
  rewrite Hmds. simpl.
  apply traverse_returns. intros j md Hmd.
  destruct (traverse_lookup_inv _ _ _ _ _ _ Hmds Hmd) as (file & Hfile & Hread).
  destruct (Hfiles file) as (md' & m & Hread' & Hparse).
  { apply list_elem_of_lookup. eauto. }
  simpl in Hread. rewrite Hread in Hread'. injection Hread' as <-.
  unfold to_post. simpl. rewrite Hparse, Hfile. simpl. eauto.
Qed.

(** X1. The listing is all or nothing: the page returns a listing exactly
    when the directory can be enumerated and every enumerated file is read
    and passes the schema. *)
Theorem listing_returns_iff (IS_DEVELOPMENT : bool) :
  (exists listing, Page IS_DEVELOPMENT = Return listing) <->
  (exists files,
     readdirSync (getPublicPath "content/blog") = Return files /\
     forall file, file ∈ files ->
       exists md m, read file = Return md /\
                    blogMatterSchema_parse (frontmatter md) = Return m).
Proof.
  split.
  - intros [listing Hpage].
    destruct (Page_returns_inv _ _ Hpage) as (all & Hall & _).
    destruct (posts_return_dir _ Hall) as [files Hdir].
    exists files. split; [exact Hdir|]. intros file Hin.
    apply list_elem_of_lookup in Hin as [j Hfile].
    destruct (posts_of_files _ _ Hdir Hall) as [Hlen Hposts].
    destruct (lookup_lt_is_Some_2 all j) as [post Hpost].
    { rewrite Hlen. eapply lookup_lt_Some, Hfile. }
    destruct (Hposts j post Hpost) as (file' & md & Hfile' & Hread & Hparse & _).
    rewrite Hfile in Hfile'. injection Hfile' as <-. eauto.
  - intros (files & Hdir & Hfiles).
    destruct (posts_return files Hdir Hfiles) as [all Hall].
    rewrite (Page_of_posts _ _ Hall). eauto.
Qed.

Lemma listing_entries_from_files_aux (IS_DEVELOPMENT : bool) (listing : list Post)
    (post : Post) :
  Page IS_DEVELOPMENT = Return listing -> post ∈ listing ->
  exists file md, read file = Return md /\ slug post = before_first_dot file.
Proof.
  intros Hpage Hin.
  destruct (Page_returns_inv _ _ Hpage) as (all & Hall & ->).
  destruct (posts_return_dir _ Hall) as [files Hdir].
  apply elem_of_listing in Hin as [Hin _].
  apply list_elem_of_lookup in Hin as [j Hpost].
  destruct (posts_of_files _ _ Hdir Hall) as [_ Hposts].
  destruct (Hposts j post Hpost) as (file & md & _ & Hread & _ & Hslug). eauto.
Qed.

(** X2. Every entry of the listing comes from an enumerated file: its
    front matter is the file's, validated, and its slug is the file's name
    up to the first dot.  There are no more entries than files, and in
    development there is one entry per file. *)
Theorem listing_entries_from_files (IS_DEVELOPMENT : bool) (listing : list Post) :
  Page IS_DEVELOPMENT = Return listing ->
  exists files,
    readdirSync (getPublicPath "content/blog") = Return files /\
    (length listing <= length files)%nat /\
    (IS_DEVELOPMENT = true -> length listing = length files) /\
    forall post, post ∈ listing ->
      exists file md,
        file ∈ files /\ read file = Return md /\
        blogMatterSchema_parse (frontmatter md) = Return (matter post) /\
        slug post = before_first_dot file.
Proof.
  intros Hpage.
  destruct (Page_returns_inv _ _ Hpage) as (all & Hall & ->).
  destruct (posts_return_dir _ Hall) as [files Hdir].
  destruct (posts_of_files _ _ Hdir Hall) as [Hlen Hposts].
  exists files. split; [exact Hdir|].
  rewrite sort_permutation, <- Hlen.
  split; [apply List.filter_length_le|]. split.
  - intros ->. f_equal. apply forallb_filter_id, forallb_forall.
    intros post _. unfold listed. apply orb_true_r.
  - intros post Hin. apply elem_of_listing in Hin as [Hin _].
    apply list_elem_of_lookup in Hin as [j Hpost].
    destruct (Hposts j post Hpost) as (file & md & Hfile & Hrest).
    exists file, md. split; [|exact Hrest].
    apply list_elem_of_lookup. eauto.
Qed.

(** X3. One enumerated entry with no content file behind the part of its
    name before the first dot fails the whole listing, the reading of the
    empty path failing as it does. *)
Theorem stray_file_aborts_listing (IS_DEVELOPMENT : bool)
    (files : list string) (file : string) (e : Exception) :
  readdirSync (getPublicPath "content/blog") = Return files ->
  file ∈ files ->
  lookupPublicFile (getPublicPath ("content/blog/" +:+ before_first_dot file)) "mdx"
    = None ->
  readMdFile "" true = Throw e ->
  exists e', Page IS_DEVELOPMENT = Throw e'.
Proof.
  intros Hdir Hin Hlookup Hempty.
  apply list_elem_of_lookup in Hin as [j Hfile].
  unfold Page, posts. rewrite Hdir. simpl.
  destruct (traverse_throws (fun _ f => read f) files 0%nat j file e Hfile)
    as [e' He'].
  - unfold read. rewrite Hlookup. exact Hempty.
  - rewrite He'. simpl. eauto.
Qed.

End ListingFiles.

(** The repository [with_draft] in production: one entry, of
    [january.mdx]. *)
Lemma january_entry_from_file :
  exists files,
    @readdirSync (Memory.collaborators Memory.with_draft)
      (@getPublicPath (Memory.collaborators Memory.with_draft) "content/blog")
      = Js.Return files /\
    (length [Memory.january_entry] <= length files)%nat /\
    (false = true -> length [Memory.january_entry] = length files) /\
    forall post, post ∈ [Memory.january_entry] ->
      exists file md,
        file ∈ files /\
        @BlogIndex.read (Memory.collaborators Memory.with_draft) file = Js.Return md /\
        Schema.parse (frontmatter md) = Js.Return (BlogIndex.matter post) /\
        BlogIndex.slug post = BlogIndex.before_first_dot file.
Proof.
  apply (@listing_entries_from_files (Memory.collaborators Memory.with_draft) false
           [Memory.january_entry]).
  vm_compute; reflexivity.
Defined.

(** The repository [stray]: [.DS_Store] fails the listing. *)
Lemma ds_store_aborts_listing :
  exists e', @BlogIndex.Page (Memory.collaborators Fixtures.stray) true = Js.Throw e'.
Proof.
  apply (@stray_file_aborts_listing (Memory.collaborators Fixtures.stray) true
           ["january.mdx"; ".DS_Store"] ".DS_Store" (Js.ENOENT "")).
  - vm_compute; reflexivity.
  - apply list_elem_of_In. simpl. auto.
  - vm_compute; reflexivity.
  - vm_compute; reflexivity.
Defined.

(** ** From the listing to the post page *)

Section Links.
Import Js.
Context `{Collaborators}.

(** X4. Every link of the listing leads to a post: the lookup the post
    page makes for a listed slug finds a file, and the page does not show
    "Post not Found", the reading of the empty path failing as it does. *)
Theorem listed_link_resolves (IS_DEVELOPMENT : bool) (listing : list BlogIndex.Post)
    (post : BlogIndex.Post) (e : Exception) :
  readMdFile "" true = Throw e ->
  BlogIndex.Page IS_DEVELOPMENT = Return listing ->
  post ∈ listing ->
  exists file,
    lookupPublicFile (getPublicPath ("content/blog/" +:+ BlogIndex.slug post)) "mdx"
      = Some file /\
    file <> "" /\
    forall mode calls,
      BlogPost.Page mode (BlogIndex.slug post) <> (calls, Return BlogPost.PostNotFound).
Proof.
  intros Hempty Hpage Hin.
  destruct (listing_entries_from_files_aux IS_DEVELOPMENT listing post Hpage Hin)
    as (file0 & md & Hread & Hslug).
  unfold BlogIndex.read in Hread. rewrite <- Hslug in Hread.
  destruct (lookupPublicFile (getPublicPath ("content/blog/" +:+ BlogIndex.slug post))
              "mdx") as [file|] eqn:Hlookup; simpl in Hread; [|congruence].
  exists file. split; [reflexivity|].
  assert (Hname : file <> "") by (intros ->; congruence).
  split; [exact Hname|].
  intros mode calls.
  unfold BlogPost.Page, mbind, BlogPost.traced_bind, BlogPost.andThen, BlogPost.call.
  rewrite Hlookup. destruct file as [|c rest]; [congruence|].
  destruct (readFileSync (String c rest)) as [fileContents|e1]; [|discriminate].
  destruct (serialize fileContents) as [source|e2]; [|discriminate].
  destruct (blogMatterSchema_parse (frontmatter source)) as [matter|e3]; discriminate.
Qed.

End Links.

(** The entry of [january.mdx] links to a post. *)
Lemma january_link_resolves :
  exists file,
    @lookupPublicFile (Memory.collaborators Memory.with_draft)
      (@getPublicPath (Memory.collaborators Memory.with_draft)
         ("content/blog/" +:+ BlogIndex.slug Memory.january_entry)) "mdx"
      = Some file /\
    file <> "" /\
    forall mode calls,
      @BlogPost.Page (Memory.collaborators Memory.with_draft) mode
        (BlogIndex.slug Memory.january_entry)
        <> (calls, Js.Return BlogPost.PostNotFound).
Proof.
  apply (@listed_link_resolves (Memory.collaborators Memory.with_draft) false
           [Memory.january_entry] Memory.january_entry (Js.ENOENT "")).
  - reflexivity.
  - vm_compute; reflexivity.
  - apply list_elem_of_In. simpl. auto.
Defined.

(** ** Slugs *)

Section Slugs.
Import Js.

Lemma split_first_part (s : string) :
  exists first parts,
    split "." s = first :: parts /\
    ("."%char ∉ String.list_ascii_of_string first) /\
    (s = first \/ exists rest, s = first +:+ String "." rest).
Proof.
  induction s as [|c s IH]; simpl.
  - exists "", []. split; [reflexivity|]. split; [|left; reflexivity].
    simpl. apply not_elem_of_nil.
  - destruct (Ascii.eqb_spec c ".") as [->|Hc].
    + exists "", (split "." s). split; [reflexivity|]. split.
      * simpl. apply not_elem_of_nil.
      * right. exists s. reflexivity.
    + destruct IH as (first & parts & -> & Hfirst & Hrest).
      exists (String c first), parts. split; [reflexivity|]. split.
      * simpl. apply not_elem_of_cons. split; [congruence|exact Hfirst].
      * destruct Hrest as [->|[rest ->]]; [left; reflexivity|].
        right. exists rest. reflexivity.
Qed.

(** X6. The slug the listing page derives from a file name has no dot in
    it, and the name is the slug itself or the slug, a dot and a rest: the
    slug is the name cut at its first dot. *)
Theorem listing_slug_is_cut_at_first_dot (file : string) :
  ("."%char ∉ String.list_ascii_of_string (BlogIndex.before_first_dot file)) /\
  (file = BlogIndex.before_first_dot file \/
   exists rest, file = BlogIndex.before_first_dot file +:+ String "." rest).
Proof.
  unfold BlogIndex.before_first_dot.
  destruct (split_first_part file) as (first & parts & -> & Hfirst & Hrest).
  simpl. auto.
Qed.

Lemma simple_name_agrees (file : string) :
  Fixtures.simple_name file -> path_parse_name file = BlogIndex.before_first_dot file.
Proof.
  intros [Hplain|(stem & ext & -> & Hstem & Hs & He)].
  - destruct (derivations_agree_without_dot file Hplain) as [-> ->]. reflexivity.
  - destruct (derivations_agree_on_single_extension stem ext Hstem Hs He) as [-> ->].
    reflexivity.
Qed.

Context `{Collaborators}.

(** X5. Where every enumerated name is a stem with one extension, or has
    no dot, the static parameters are the slugs of the posts the listing
    page reads, file by file: every entry of the listing has its page
    generated. *)
Theorem static_params_are_listing_slugs (files : list string)
    (all : list BlogIndex.Post) :
  readdirSync (getPublicPath "content/blog") = Return files ->
  Forall Fixtures.simple_name files ->
  BlogIndex.posts = Return all ->
  BlogPost.generateStaticParams = Return (BlogIndex.slug <$> all).
Proof.
  intros Hdir Hnames Hall.
  unfold BlogPost.generateStaticParams. rewrite Hdir. simpl. f_equal.
  destruct (posts_of_files _ _ Hdir Hall) as [Hlen Hposts].
  apply list_eq. intros j. rewrite !list_lookup_fmap.
  destruct (all !! j) as [post|] eqn:Hpost; simpl.
  - destruct (Hposts j post Hpost) as (file & md & Hfile & _ & _ & Hslug).
    rewrite Hfile. simpl. f_equal. rewrite Hslug. apply simple_name_agrees.
    rewrite Forall_lookup in Hnames. exact (Hnames j file Hfile).
  - apply lookup_ge_None in Hpost. rewrite Hlen in Hpost.
    apply lookup_ge_None in Hpost. rewrite Hpost. reflexivity.
Qed.

End Slugs.

(** The repository [with_draft]: a file and a directory. *)
Lemma with_draft_static_params :
  @BlogPost.generateStaticParams (Memory.collaborators Memory.with_draft)
    = Js.Return (BlogIndex.slug <$> [Memory.january_entry; Memory.sketch_entry]).
Proof.
  apply (@static_params_are_listing_slugs (Memory.collaborators Memory.with_draft)
           ["january.mdx"; "sketch"]).
  - vm_compute; reflexivity.
  - constructor; [|constructor; [|constructor]].
    + right. exists "january", "mdx". split; [reflexivity|].
      split; [discriminate|].
      split; repeat (constructor; [split; discriminate|]); constructor.
    + left. repeat (constructor; [split; discriminate|]); constructor.
  - vm_compute; reflexivity.
Defined.

(** ** The order of the listing *)

Section ListingOrder.
Import Js BlogIndex.

#[local] Abbreviation date p := (Schema.publishedAt (matter p)).

Lemma by_date_negative (a b : Post) : (by_date a b <? 0) = (date b <=? date a).
Proof.
  unfold by_date. destruct (Z.ltb_spec (date a) (date b));
    destruct (Z.leb_spec (date b) (date a)); try reflexivity; lia.
Qed.

(** A pivot goes in front of the posts of its own date. *)
Lemma insert_same_date (d : Z) (pivot : Post) (sorted : list Post) :
  List.filter (fun p => date p =? d) (insert by_date pivot sorted)
  = if date pivot =? d
    then pivot :: List.filter (fun p => date p =? d) sorted
    else List.filter (fun p => date p =? d) sorted.
Proof.
  induction sorted as [|element rest IH]; simpl.
  - destruct (date pivot =? d); reflexivity.
  - rewrite by_date_negative.
    destruct (Z.leb_spec (date element) (date pivot)) as [Hle|Hlt]; simpl.
    + destruct (date pivot =? d); reflexivity.
    + rewrite IH.
      destruct (Z.eqb_spec (date pivot) d) as [Hp|Hp];
        destruct (Z.eqb_spec (date element) d) as [He|He]; try reflexivity; lia.
Qed.

Lemma sort_same_date (d : Z) (array : list Post) : forall sorted,
  List.filter (fun p => date p =? d)
    (fold_left (fun acc pivot => insert by_date pivot acc) array sorted)
  = rev (List.filter (fun p => date p =? d) array)
      ++ List.filter (fun p => date p =? d) sorted.
Proof.
  induction array as [|pivot rest IH]; intros sorted; simpl; [reflexivity|].
  rewrite IH, insert_same_date.
  destruct (date pivot =? d); simpl; [|reflexivity].
  rewrite <- app_assoc. reflexivity.
Qed.

Lemma insert_in_front (pivot : Post) (sorted : list Post) :
  Forall (fun p => date p <= date pivot) sorted ->
  insert by_date pivot sorted = pivot :: sorted.
Proof.
  intros Hall. destruct sorted as [|element rest]; [reflexivity|].
  simpl. rewrite by_date_negative.
  apply Forall_cons in Hall as [Hle _].
  destruct (Z.leb_spec (date element) (date pivot)); [reflexivity|lia].
Qed.

Lemma Forall_filter_bool (P : Post -> Prop) (keep : Post -> bool) (l : list Post) :
  Forall P l -> Forall P (List.filter keep l).
Proof.
  induction 1 as [|x l Hx Hl IH]; simpl; [constructor|].
  destruct (keep x); [constructor; assumption|exact IH].
Qed.

Lemma insert_filter (keep : Post -> bool) (pivot : Post) (sorted : list Post) :
  StronglySorted (fun a b => date a >= date b) sorted ->
  List.filter keep (insert by_date pivot sorted)
  = if keep pivot then insert by_date pivot (List.filter keep sorted)
    else List.filter keep sorted.
Proof.
  induction 1 as [|element rest Hrest IH Hall]; simpl.
  - destruct (keep pivot); reflexivity.
  - rewrite by_date_negative.
    destruct (Z.leb_spec (date element) (date pivot)) as [Hle|Hlt].
    + simpl. destruct (keep pivot) eqn:Hkeep; [|reflexivity].
      rewrite insert_in_front; [reflexivity|].
      assert (Hbelow : Forall (fun p => date p <= date pivot) (element :: rest)).
      { constructor; [exact Hle|]. eapply Forall_impl; [exact Hall|].
        simpl. intros p Hp. lia. }
      exact (Forall_filter_bool _ keep _ Hbelow).
    + simpl. rewrite IH.
      destruct (keep element) eqn:Helement; destruct (keep pivot); try reflexivity.
      simpl. rewrite by_date_negative.
      destruct (Z.leb_spec (date element) (date pivot)); [lia|reflexivity].
Qed.

Lemma descending_transitive :
  Transitive (fun a b : Post => date a >= date b).
Proof. intros a b c Hab Hbc. lia. Qed.

Lemma insert_strongly_sorted (pivot : Post) (sorted : list Post) :
  StronglySorted (fun a b => date a >= date b) sorted ->
  StronglySorted (fun a b => date a >= date b) (insert by_date pivot sorted).
Proof.
  intros Hsorted.
  apply Sorted_StronglySorted; [exact descending_transitive|].
  apply (insert_sorted by_date (fun a b => date a >= date b)).
  - intros a b Hlt. unfold by_date in Hlt.
    destruct (Z.ltb_spec (date a) (date b)); lia.
  - intros a b Hnot. unfold by_date in Hnot.
    destruct (Z.ltb_spec (date a) (date b)); lia.
  - apply StronglySorted_Sorted, Hsorted.
Qed.

Lemma sort_filter_from (keep : Post -> bool) (array : list Post) : forall sorted,
  StronglySorted (fun a b => date a >= date b) sorted ->
  List.filter keep (fold_left (fun acc pivot => insert by_date pivot acc) array sorted)
  = fold_left (fun acc pivot => insert by_date pivot acc)
      (List.filter keep array) (List.filter keep sorted).
Proof.
  induction array as [|pivot rest IH]; intros sorted Hsorted; simpl; [reflexivity|].
  rewrite IH by (apply insert_strongly_sorted, Hsorted).
  rewrite insert_filter by exact Hsorted.
  destruct (keep pivot); reflexivity.
Qed.

Lemma sort_filter (keep : Post -> bool) (array : list Post) :
  sort by_date (List.filter keep array) = List.filter keep (sort by_date array).
Proof.
  unfold sort. rewrite (sort_filter_from keep array []); [reflexivity|constructor].
Qed.

Context `{Collaborators}.

(** X7. Posts of one date are listed in the reverse of the order in which
    their files are enumerated: on equal dates the comparison function
    answers -1, so each post is put in front of those of its date that
    came before it. *)
Theorem same_date_in_reverse_order (IS_DEVELOPMENT : bool) (all : list Post) (d : Z) :
  posts = Return all ->
  exists listing,
    Page IS_DEVELOPMENT = Return listing /\
    List.filter (fun p => date p =? d) listing
    = rev (List.filter (fun p => date p =? d)
             (List.filter (listed IS_DEVELOPMENT) all)).
Proof.
  intros Hall. eexists. split; [apply Page_of_posts, Hall|].
  unfold sort. rewrite sort_same_date. simpl. apply app_nil_r.
Qed.

(** X8. The production listing is the development listing with the drafts
    taken out, the other posts in the same order. *)
Theorem production_is_development_without_drafts (all : list Post) :
  posts = Return all ->
  exists production development,
    Page false = Return production /\
    Page true = Return development /\
    production = List.filter (listed false) development.
Proof.
  intros Hall. eexists _, _.
  split; [apply Page_of_posts, Hall|]. split; [apply Page_of_posts, Hall|].
  rewrite sort_filter. f_equal. f_equal.
  symmetry. apply forallb_filter_id, forallb_forall.
  intros post _. unfold listed. apply orb_true_r.
Qed.

End ListingOrder.

(** The repository [same_day]: the post enumerated second is listed first. *)
Lemma evening_before_morning :
  exists listing,
    @BlogIndex.Page (Memory.collaborators Fixtures.same_day) false = Js.Return listing /\
    List.filter (fun p => Schema.publishedAt (BlogIndex.matter p) =? 1704067200000) listing
    = rev (List.filter
             (fun p => Schema.publishedAt (BlogIndex.matter p) =? 1704067200000)
             (List.filter (BlogIndex.listed false)
                [Fixtures.morning_entry; Fixtures.evening_entry])).
Proof.
  apply (@same_date_in_reverse_order (Memory.collaborators Fixtures.same_day) false
           [Fixtures.morning_entry; Fixtures.evening_entry] 1704067200000).
  vm_compute; reflexivity.
Defined.

(** The repository [with_draft]: production is development without the
    draft. *)
Lemma with_draft_production_listing :
  exists production development,
    @BlogIndex.Page (Memory.collaborators Memory.with_draft) false = Js.Return production /\
    @BlogIndex.Page (Memory.collaborators Memory.with_draft) true = Js.Return development /\
    production = List.filter (BlogIndex.listed false) development.
Proof.
  apply (@production_is_development_without_drafts
           (Memory.collaborators Memory.with_draft)
           [Memory.january_entry; Memory.sketch_entry]).
  vm_compute; reflexivity.
Defined.

(** ** What the listing shows *)

Section ListingView.
Import Js BlogIndex BlogIndexView.

(** X9. A post with at most three tags gets one badge per tag.  A post
    with more gets three badges: its first two tags, and "+N" where N is
    the number of the tags after those two. *)
Theorem tag_badges_count_the_rest (tags : list string) :
  length (tag_badges tags) = Nat.min 3 (length tags) /\
  ((length tags <= 3)%nat -> tag_badges tags = tags) /\
  ((3 < length tags)%nat ->
     tag_badges tags
     = take 2 tags ++ ["+" +:+ pretty (Z.of_nat (length (drop 2 tags)))]).
Proof.
  unfold tag_badges.
  assert (Hrest : (2 <= length tags)%nat ->
            Z.of_nat (length tags) - 2 = Z.of_nat (length (drop 2 tags))).
  { intros Hlen. rewrite length_drop. lia. }
  destruct (Z.ltb_spec 3 (Z.of_nat (length tags))) as [Hmore|Hfew].
  - rewrite Hrest by lia.
    destruct tags as [|a [|b [|c [|d rest]]]]; simpl in Hmore; try lia.
    split; [reflexivity|]. split; [simpl; lia|]. intros _. reflexivity.
  - destruct tags as [|a [|b [|c [|d rest]]]]; simpl in Hfew; try lia;
      (split; [reflexivity|]); (split; [reflexivity|]); simpl; lia.
Qed.

Lemma render_elem (parsed : list Post) (item : Item) :
  item ∈ render parsed ->
  exists i post, parsed !! i = Some post /\ item = render_item i post.
Proof.
  unfold render. intros Hin.
  apply list_elem_of_lookup in Hin as [i Hitem].
  rewrite list_lookup_imap in Hitem.
  destruct (parsed !! i) as [post|] eqn:Hpost; [|discriminate].
  injection Hitem as <-. eauto.
Qed.

Context `{Collaborators}.

(** X10. In a production build no entry of the rendered listing carries
    the " (draft)" mark: every heading is the title alone. *)
Theorem production_listing_has_no_draft_mark (parsed : list Post) :
  Page false = Return parsed ->
  length (render parsed) = length parsed /\
  forall item, item ∈ render parsed ->
    exists post, post ∈ parsed /\ heading item = [Schema.title (matter post)].
Proof.
  intros Hpage. split; [apply length_imap|].
  intros item Hin.
  destruct (render_elem _ _ Hin) as (i & post & Hpost & ->).
  assert (Hlisted : post ∈ parsed) by (apply list_elem_of_lookup; eauto).
  exists post. split; [exact Hlisted|].
  destruct (Page_returns_inv _ _ Hpage) as (all & _ & ->).
  apply elem_of_listing in Hlisted as [_ Hkept].
  unfold listed in Hkept. rewrite orb_false_r in Hkept.
  simpl. unfold heading_of.
  destruct (bool_decide (Schema.draft (matter post) = Some true));
    [discriminate|reflexivity].
Qed.

End ListingView.

(** The repository [with_draft], rendered in production. *)
Lemma with_draft_rendered_in_production :
  length (BlogIndexView.render [Memory.january_entry]) = length [Memory.january_entry] /\
  forall item, item ∈ BlogIndexView.render [Memory.january_entry] ->
    exists post, post ∈ [Memory.january_entry] /\
      BlogIndexView.heading item = [Schema.title (BlogIndex.matter post)].
Proof.
  apply (@production_listing_has_no_draft_mark (Memory.collaborators Memory.with_draft)
           [Memory.january_entry]).
  vm_compute; reflexivity.
Defined.

(** ** What the post page does *)

Section PostPage.
Import Js BlogPost.
Context `{Collaborators}.

(** X11. An article is shown only from validated front matter: when the
    page returns an article, the file was found, read, compiled and
    validated, in this order and with no other call; the article shows the
    validated title, dates and tags; and its body is left out exactly when
    the post is a draft and the build is not a development build. *)
Theorem article_is_validated (IS_DEVELOPMENT : bool) (slug : string)
    (calls : list Call) (article : Article) :
  Page IS_DEVELOPMENT slug = (calls, Return (ArticleView article)) ->
  exists file fileContents post matter,
    lookupPublicFile (getPublicPath ("content/blog/" +:+ slug)) "mdx" = Some file /\
    readFileSync file = Return fileContents /\
    serialize fileContents = Return post /\
    blogMatterSchema_parse (frontmatter post) = Return matter /\
    calls = [Lookup (getPublicPath ("content/blog/" +:+ slug)) "mdx"; ReadFile file;
             Serialize fileContents; Validate] /\
    heading article = Schema.title matter /\
    published article = Schema.publishedAt matter /\
    updated article = Schema.updatedAt matter /\
    badges article = Schema.tags matter /\
    hits_page article = "/blog/" +:+ slug /\
    (draft_notice article = true <-> Schema.draft matter = Some true) /\
    (body article = None <->
       Schema.draft matter = Some true /\ IS_DEVELOPMENT = false) /\
    (body article <> None -> body article = Some post).
Proof.
  unfold Page, mbind, traced_bind, andThen, call.
  destruct (lookupPublicFile (getPublicPath ("content/blog/" +:+ slug)) "mdx")
    as [[|c rest]|] eqn:Hlookup; try discriminate.
  destruct (readFileSync (String c rest)) as [fileContents|e1] eqn:Hread;
    [|discriminate].
  destruct (serialize fileContents) as [post|e2] eqn:Hpost; [|discriminate].
  destruct (blogMatterSchema_parse (frontmatter post)) as [matter|e3] eqn:Hmatter;
    [|discriminate].
  simpl. intros [= <- <-].
  exists (String c rest), fileContents, post, matter. simpl.
  repeat (split; [reflexivity || assumption|]).
  split; [apply bool_decide_eq_true|].
  destruct (bool_decide_reflect (Schema.draft matter = Some true)) as [Hdraft|Hdraft];
    destruct IS_DEVELOPMENT; simpl; split; try congruence; try tauto;
    split; try tauto; try discriminate; intros [? ?]; congruence.
Qed.

(** X12. When the page throws, it throws what the failing step threw and
    calls nothing after it: the reading of the file, or else the
    compilation, or else the validation. *)
Theorem post_page_stops_at_failure (IS_DEVELOPMENT : bool) (slug : string)
    (calls : list Call) (e : Exception) :
  Page IS_DEVELOPMENT slug = (calls, Throw e) ->
  exists file,
    lookupPublicFile (getPublicPath ("content/blog/" +:+ slug)) "mdx" = Some file /\
    ((readFileSync file = Throw e /\
      calls = [Lookup (getPublicPath ("content/blog/" +:+ slug)) "mdx"; ReadFile file]) \/
     (exists fileContents,
        readFileSync file = Return fileContents /\
        ((serialize fileContents = Throw e /\
          calls = [Lookup (getPublicPath ("content/blog/" +:+ slug)) "mdx";
                   ReadFile file; Serialize fileContents]) \/
         (exists post,
            serialize fileContents = Return post /\
            blogMatterSchema_parse (frontmatter post) = Throw e /\
            calls = [Lookup (getPublicPath ("content/blog/" +:+ slug)) "mdx";
                     ReadFile file; Serialize fileContents; Validate])))).
Proof.
  unfold Page, mbind, traced_bind, andThen, call.
  destruct (lookupPublicFile (getPublicPath ("content/blog/" +:+ slug)) "mdx")
    as [[|c rest]|] eqn:Hlookup; try discriminate.
  destruct (readFileSync (String c rest)) as [fileContents|e1] eqn:Hread;
    [destruct (serialize fileContents) as [post|e2] eqn:Hpost;
       [destruct (blogMatterSchema_parse (frontmatter post)) as [matter|e3] eqn:Hmatter;
          [discriminate|]|]|];
    simpl; intros [= <- <-]; exists (String c rest); (split; [reflexivity|]).
  - right. exists fileContents. split; [exact Hread|].
    right. exists post. auto.
  - right. exists fileContents. split; [exact Hread|]. left. auto.
  - left. auto.
Qed.

Lemma title_is_not_not_found (s : string) : s +:+ " | Blog" <> "Post Not Found".
Proof.
  intros Heq. apply (f_equal String.list_ascii_of_string) in Heq.
  rewrite chars_app in Heq. apply (f_equal (@rev ascii)) in Heq.
  rewrite rev_app_distr in Heq. simpl in Heq. discriminate.
Qed.

(** X13. The metadata says "Post Not Found" exactly when the file of the
    slug could not be read, and exactly then an error is printed. *)
Theorem metadata_not_found_iff_unreadable (slug : string) :
  let file := lookupPublicFile (getPublicPath ("content/blog/" +:+ slug)) "mdx" in
  (title (snd (generateMetadata slug)) = "Post Not Found" <->
   exists e, readMdFile (default "" file) false = Throw e) /\
  (fst (generateMetadata slug) <> [] <->
   exists e, readMdFile (default "" file) false = Throw e).
Proof.
  intros file. unfold generateMetadata. fold file.
  destruct (readMdFile (default "" file) false) as [md|e]; simpl.
  - split; split.
    + intros Htitle. destruct (title_is_not_not_found _ Htitle).
    + intros [e He]. discriminate.
    + congruence.
    + intros [e He]. discriminate.
  - split; split; eauto; discriminate.
Qed.


End PostPage.

(** The page of [january.mdx] in the repository [with_draft]. *)
Lemma january_article_is_validated :
  exists file fileContents post matter,
    @readFileSync (Memory.collaborators Memory.with_draft) file = Js.Return fileContents /\
    @serialize (Memory.collaborators Memory.with_draft) fileContents = Js.Return post /\
    Schema.parse (frontmatter post) = Js.Return matter /\
    BlogPost.heading Fixtures.january_article = Schema.title matter /\
    BlogPost.badges Fixtures.january_article = Schema.tags matter.
Proof.
  destruct (@article_is_validated (Memory.collaborators Memory.with_draft) false
              "january" Fixtures.january_calls Fixtures.january_article)
    as (file & fileContents & post & matter & _ & Hread & Hpost & Hmatter & _
        & Hheading & _ & _ & Hbadges & _).
  - vm_compute; reflexivity.
  - exists file, fileContents, post, matter. auto.
Defined.

(** The page of [broken.mdx] in the repository [no_summary] stops at the
    validation. *)
Lemma broken_page_stops_at_validation :
  exists file,
    @lookupPublicFile (Memory.collaborators Memory.no_summary)
      "public/content/blog/broken" "mdx" = Some file /\
    (@readFileSync (Memory.collaborators Memory.no_summary) file
       = Js.Throw (Js.ZodError [Js.Required "summary"]) \/
     exists fileContents,
       @readFileSync (Memory.collaborators Memory.no_summary) file
         = Js.Return fileContents).
Proof.
  destruct (@post_page_stops_at_failure (Memory.collaborators Memory.no_summary) true
              "broken"
              [BlogPost.Lookup "public/content/blog/broken" "mdx";
               BlogPost.ReadFile "public/content/blog/broken.mdx";
               BlogPost.Serialize "--- broken.mdx"; BlogPost.Validate]
              (Js.ZodError [Js.Required "summary"]))
    as (file & Hlookup & [[Hread _]|(fileContents & Hread & _)]).
  - vm_compute; reflexivity.
  - exists file. split; [exact Hlookup|]. left. exact Hread.
  - exists file. split; [exact Hlookup|]. right. exists fileContents. exact Hread.
Defined.


(** ** The static parameters *)

Section StaticParams.
Import Js.

Lemma scan_step_no_slash st i c : c <> "/"%char ->
  broke (scan_step st i c) = broke st /\
  startPart (scan_step st i c) = startPart st /\
  end_ (scan_step st i c) = (if end_ st =? -1 then i + 1 else end_ st) /\
  ((startDot st = -1 /\ preDotState st = 0) ->
     (startDot (scan_step st i c) = -1 \/ startDot (scan_step st i c) = i) /\
     preDotState (scan_step st i c) = 0) /\
  (startDot st <> -1 ->
     startDot (scan_step st i c) = startDot st /\ preDotState (scan_step st i c) <> 0).
Proof.
  intros Hc. unfold scan_step.
  destruct (Ascii.eqb_spec c "/") as [->|_]; [congruence|].
  destruct st as [sd sp e ms pd br]; simpl.
  destruct (e =? -1); simpl;
    destruct (Ascii.eqb c "."); simpl;
    destruct (Z.eqb_spec sd (-1)); simpl;
    try destruct (Z.eqb_spec pd 1); simpl;
    repeat split; intros; try lia; auto; try (destruct H; lia).
Qed.

Lemma scan_no_slash (len : Z) : forall cs_rev i st,
  Forall (fun c => c <> "/"%char) cs_rev ->
  i = Z.of_nat (length cs_rev) - 1 ->
  broke st = false -> startPart st = 0 ->
  (end_ st = -1 /\ i = len - 1 \/ end_ st = len /\ i < len - 1) ->
  (startDot st = -1 /\ preDotState st = 0 \/
   i + 1 <= startDot st /\ (preDotState st <> 0 -> i + 2 <= startDot st)) ->
  startPart (scan cs_rev i 0 st) = 0 /\
  (end_ (scan cs_rev i 0 st) = len \/ cs_rev = []) /\
  (startDot (scan cs_rev i 0 st) = -1 \/
   0 <= startDot (scan cs_rev i 0 st) /\
   (preDotState (scan cs_rev i 0 st) <> 0 -> 1 <= startDot (scan cs_rev i 0 st))).
Proof.
  induction cs_rev as [|c more IH]; intros i st Hplain Hi Hbroke Hpart Hend Hdot.
  - simpl in *. split; [exact Hpart|]. split; [auto|].
    destruct Hdot as [[Hd _]|[Hd Hpd]]; [auto|]. right. split; [lia|]. intros Hne.
    specialize (Hpd Hne). lia.
  - apply Forall_cons in Hplain as [Hc Hplain]. simpl length in Hi. cbn [scan].
    destruct (Z.ltb_spec i 0) as [Hneg|_]; [lia|]. rewrite Hbroke. cbn [orb].
    destruct (scan_step_no_slash st i c Hc) as (Hb & Hp & He & Hnone & Hsome).
    assert (Hend' : end_ (scan_step st i c) = len /\ i - 1 < len - 1).
    { rewrite He. destruct Hend as [[He0 Hi0]|[He0 Hlt]]; rewrite He0.
      - simpl. split; lia.
      - destruct (Z.eqb_spec len (-1)); split; lia. }
    assert (Hdot' : startDot (scan_step st i c) = -1 /\ preDotState (scan_step st i c) = 0
                    \/ i - 1 + 1 <= startDot (scan_step st i c)
                       /\ (preDotState (scan_step st i c) <> 0 ->
                           i - 1 + 2 <= startDot (scan_step st i c))).
    { destruct Hdot as [Hd|[Hd Hpd]].
      - destruct (Hnone Hd) as [[Hsd|Hsd] Hpd']; [left; auto|].
        right. split; [lia|]. intros Hne. congruence.
      - destruct Hsome as [Hsd Hpd']; [lia|]. right. rewrite Hsd. split; lia. }
    destruct (IH (i - 1) (scan_step st i c) Hplain ltac:(lia) ltac:(congruence)
                ltac:(congruence) (or_intror Hend') Hdot') as (Hp' & He' & Hd').
    split; [exact Hp'|]. split; [|exact Hd'].
    left. destruct He' as [He'|Hmore]; [exact He'|]. rewrite Hmore. simpl.
    apply Hend'.
Qed.

Lemma name_from_prefix (codes : list ascii) :
  codes <> [] -> Forall (fun c => c <> "/"%char) codes ->
  exists n, (1 <= n)%nat /\ name_from codes false = take n codes.
Proof.
  intros Hcodes Hplain.
  assert (Hlen : (1 <= length codes)%nat) by (destruct codes; [congruence|simpl; lia]).
  destruct (scan_no_slash (Z.of_nat (length codes)) (rev codes)
              (Z.of_nat (length codes) - 1) scan_init)
    as (Hpart & Hend & Hdot).
  { apply Forall_rev, Hplain. }
  { rewrite length_rev. reflexivity. }
  { reflexivity. }
  { reflexivity. }
  { left. split; reflexivity. }
  { left. split; reflexivity. }
  destruct Hend as [Hend|Hrev].
  2: { apply (f_equal length) in Hrev. rewrite length_rev in Hrev. simpl in Hrev. lia. }
  unfold name_from. cbv zeta. rewrite Hend, Hpart.
  destruct (Z.eqb_spec (Z.of_nat (length codes)) (-1)) as [Hneg|_]; [lia|].
  cbn [negb andb]. change (0 =? 0) with true. cbn [andb]. unfold slice.
  rewrite !Z.sub_0_r. change (Z.to_nat 0) with 0%nat. rewrite drop_0.
  match goal with |- context [if ?b then _ else _] => destruct b eqn:Hwhole end.
  - exists (length codes). rewrite Nat2Z.id. auto.
  - apply orb_false_elim in Hwhole as [Hwhole _].
    apply orb_false_elim in Hwhole as [Hnone Hzero].
    apply Z.eqb_neq in Hnone, Hzero.
    destruct Hdot as [Hdot|[_ Hdot]]; [congruence|].
    exists (Z.to_nat (startDot (scan (rev codes) (Z.of_nat (length codes) - 1) 0
                               scan_init))).
    split; [|reflexivity]. specialize (Hdot Hzero). lia.
Qed.

Lemma string_of_chars_app (a b : list ascii) :
  String.string_of_list_ascii (a ++ b)
  = String.string_of_list_ascii a +:+ String.string_of_list_ascii b.
Proof.
  induction a as [|c a IH]; [reflexivity|].
  change (String c (String.string_of_list_ascii (a ++ b))
          = String c (String.string_of_list_ascii a +:+ String.string_of_list_ascii b)).
  rewrite IH. reflexivity.
Qed.

Lemma path_parse_name_prefix (file : string) :
  "/"%char ∉ String.list_ascii_of_string file ->
  exists rest,
    file = path_parse_name file +:+ rest /\ (file <> "" -> path_parse_name file <> "").
Proof.
  intros Hslash. unfold path_parse_name, parse_name.
  destruct (String.list_ascii_of_string file) as [|c cs] eqn:Hcodes.
  - exists "". split; [|intros Hfile; destruct file; [congruence|discriminate]].
    destruct file; [reflexivity|discriminate].
  - apply not_elem_of_cons in Hslash as [Hc Hcs].
    destruct (Ascii.eqb_spec c "/") as [->|_]; [congruence|].
    destruct (name_from_prefix (c :: cs)) as (n & Hn & ->); [discriminate| |].
    { constructor; [congruence|]. apply Forall_forall. intros x Hx ->. exact (Hcs Hx). }
    exists (String.string_of_list_ascii (drop n (c :: cs))). split.
    + rewrite <- string_of_chars_app, take_drop, <- Hcodes.
      symmetry. apply String.string_of_list_ascii_of_string.
    + intros _. destruct n as [|n]; [lia|]. discriminate.
Qed.

Context `{Collaborators}.

(** X15. A static parameter is never empty for a name that is not, and it
    is the beginning of the name: [path.parse] takes an extension off the
    end and nothing else, for names with no slash in them (the entries of
    a directory).  There is one parameter per entry, drafts and files that
    are no posts included. *)
Theorem static_params_are_name_prefixes (files : list string) :
  readdirSync (getPublicPath "content/blog") = Return files ->
  Forall (fun file => "/"%char ∉ String.list_ascii_of_string file) files ->
  exists params,
    BlogPost.generateStaticParams = Return params /\
    length params = length files /\
    forall i file, files !! i = Some file ->
      exists slug rest,
        params !! i = Some slug /\ file = slug +:+ rest /\ (file <> "" -> slug <> "").
Proof.
  intros Hdir Hnames. unfold BlogPost.generateStaticParams. rewrite Hdir. simpl.
  eexists. split; [reflexivity|]. split; [apply length_map|].
  intros i file Hfile.
  rewrite Forall_lookup in Hnames.
  destruct (path_parse_name_prefix file (Hnames i file Hfile)) as (rest & Hrest & Hne).
  exists (path_parse_name file), rest.
  split; [|auto]. change (map path_parse_name files) with (path_parse_name <$> files).
  rewrite list_lookup_fmap, Hfile. reflexivity.
Qed.

End StaticParams.

(** The repository [stray]: [.DS_Store] gets the parameter [.DS_Store]. *)
Lemma stray_static_params :
  exists params,
    @BlogPost.generateStaticParams (Memory.collaborators Fixtures.stray)
      = Js.Return params /\
    length params = length ["january.mdx"; ".DS_Store"] /\
    forall i file, ["january.mdx"; ".DS_Store"] !! i = Some file ->
      exists slug rest,
        params !! i = Some slug /\ file = slug +:+ rest /\ (file <> "" -> slug <> "").
Proof.
  apply (@static_params_are_name_prefixes (Memory.collaborators Fixtures.stray)
           ["january.mdx"; ".DS_Store"]).
  - vm_compute; reflexivity.
  - repeat (constructor; [vm_compute; intros Hin;
                          repeat (apply elem_of_cons in Hin as [Hin|Hin];
                                  [discriminate|]);
                          inversion Hin|]).
    constructor.
Defined.
